(** * StripChromeSymbols.py: a shallow embedding and its verified properties

    The script [bin/StripChromeSymbols.py] scans the output of
    [xperf -a symcache -dbgid] for references to chrome.dll and
    chrome_child.dll, and for every reference whose .symcache file is missing
    retrieves, strips and re-translates the symbols.

    The embedding has three layers:
    - [PyStr], [Re], [NtPath]: the Python string methods, the two regular
      expressions and the [os.path] (ntpath) functions the script calls;
    - [Py]: a state-and-exception monad over the file system, the process
      environment, standard output, the module namespace and a log of the
      side effects requested from the operating system;
    - [Script]: the two functions of the script, statement by statement. *)

From Stdlib Require Import String Ascii List Bool Arith ZArith Lia.
From stdpp Require Import base gmap sets strings list.

Import ListNotations.
Local Open Scope string_scope.
Local Open Scope list_scope.

(** ** Characters that cannot be written inside a string literal *)

Definition dquote : string := String "034"%char EmptyString.
Definition newline : string := String "010"%char EmptyString.

(** ** Python [str] methods *)

Module PyStr.

Fixpoint eqb_prefix (p s : string) : bool :=
  match p, s with
  | EmptyString, _ => true
  | String a p', String b s' => Ascii.eqb a b && eqb_prefix p' s'
  | String _ _, EmptyString => false
  end.

(** [s.count(sub)]: the number of non-overlapping occurrences of [sub].
    [skip] is the number of characters still covered by the occurrence
    found last. *)
Fixpoint count_from (sub : string) (skip : nat) (s : string) : nat :=
  match s with
  | EmptyString =>
      match skip with
      | O => if eqb_prefix sub EmptyString then 1 else 0
      | S _ => 0
      end
  | String _ s' =>
      match skip with
      | S k => count_from sub k s'
      | O =>
          if eqb_prefix sub s
          then S (count_from sub (String.length sub - 1) s')
          else count_from sub 0 s'
      end
  end.

Definition count (s sub : string) : nat := count_from sub 0 s.

(** [s.replace(old, new)] for a non-empty [old]. *)
Fixpoint replace_from (old new : string) (skip : nat) (s : string) : string :=
  match s with
  | EmptyString => EmptyString
  | String c s' =>
      match skip with
      | S k => replace_from old new k s'
      | O =>
          if eqb_prefix old s
          then new +:+ replace_from old new (String.length old - 1) s'
          else String c (replace_from old new 0 s')
      end
  end.

Definition replace (s old new : string) : string := replace_from old new 0 s.

(** The white space of [str.strip()]. The script runs on Python 2 and on
    Python 3, and the two differ: a Python 2 [str] is a byte string, whose
    white space is tab, LF, VT, FF, CR and space; a Python 3 [str] is
    text, whose white space has, among the characters below 256, also the
    four separators FS, GS, RS, US (28 to 31), NEL (133) and the
    no-break space (160). [python3] says which interpreter runs. *)
Definition is_space (python3 : bool) (c : ascii) : bool :=
  let n := nat_of_ascii c in
  (Nat.leb 9 n && Nat.leb n 13) || Nat.eqb n 32
  || (python3 && ((Nat.leb 28 n && Nat.leb n 31)
                  || Nat.eqb n 133 || Nat.eqb n 160)).

Fixpoint lstrip (python3 : bool) (s : string) : string :=
  match s with
  | String c s' => if is_space python3 c then lstrip python3 s' else s
  | EmptyString => EmptyString
  end.

Fixpoint rstrip (python3 : bool) (s : string) : string :=
  match s with
  | String c s' =>
      match rstrip python3 s' with
      | EmptyString =>
          if is_space python3 c then EmptyString else String c EmptyString
      | r => String c r
      end
  | EmptyString => EmptyString
  end.

Definition strip (python3 : bool) (s : string) : string :=
  rstrip python3 (lstrip python3 s).

(** [sep.join(parts)] *)
Fixpoint join (sep : string) (parts : list string) : string :=
  match parts with
  | [] => EmptyString
  | [p] => p
  | p :: rest => p +:+ sep +:+ join sep rest
  end.

(** [s.split(c)] for a one-character separator. *)
Fixpoint split_on (c : ascii) (s : string) : list string :=
  match s with
  | EmptyString => [EmptyString]
  | String x s' =>
      if Ascii.eqb x c then EmptyString :: split_on c s'
      else match split_on c s' with
           | w :: ws => String x w :: ws
           | [] => [String x EmptyString]
           end
  end.

Definition last_char (s : string) : option ascii :=
  match String.length s with
  | O => None
  | S n => String.get n s
  end.

End PyStr.

(** ** The regular expressions of [run_and_look_for_matches]

    Both patterns are built from literal characters, greedy [.*] and
    unnested groups; [re.match] anchors at the start of the subject only and
    [.] does not match a line feed. *)

Module Re.

Inductive tok : Type :=
| Lit (c : ascii)
| DotStar
| Open
| Close.

Fixpoint lits (s : string) : list tok :=
  match s with
  | EmptyString => []
  | String c s' => Lit c :: lits s'
  end.

Definition is_lf (c : ascii) : bool := Ascii.eqb c "010"%char.

(** Backtracking matcher: [pos] is the offset of [s] in the subject,
    [opened] the start offsets of the groups still open, [caps] the spans
    of the groups closed so far, latest first. Greedy [.*] first tries the
    longest run. *)
Fixpoint run (ts : list tok) (s : string) (pos : nat)
         (opened : list nat) (caps : list (nat * nat)) {struct ts}
  : option (list (nat * nat)) :=
  match ts with
  | [] => Some (rev caps)
  | Lit c :: ts' =>
      match s with
      | String x s' =>
          if Ascii.eqb x c then run ts' s' (S pos) opened caps else None
      | EmptyString => None
      end
  | Open :: ts' => run ts' s pos (pos :: opened) caps
  | Close :: ts' =>
      match opened with
      | start :: opened' => run ts' s pos opened' ((start, pos) :: caps)
      | [] => None
      end
  | DotStar :: ts' =>
      (fix star (s : string) (pos : nat) {struct s} :=
         match s with
         | String x s' =>
             if is_lf x then run ts' s pos opened caps
             else match star s' (S pos) with
                  | Some r => Some r
                  | None => run ts' s pos opened caps
                  end
         | EmptyString => run ts' s pos opened caps
         end) s pos
  end.

(** [pattern.match(subject)] followed by [.groups()] *)
Definition match_groups (pattern : list tok) (subject : string)
  : option (list string) :=
  match run pattern subject 0 [] [] with
  | Some spans =>
      Some (map (fun '(a, b) => String.substring a (b - a) subject) spans)
  | None => None
  end.

(** [pdb_re]: a double quote, the text [RSDS] in brackets, PdbSig: and an
    opening brace, group 1 (five greedy runs separated by dashes), a
    closing brace, the text ; Age: , group 2 (a greedy run), the text
    ; Pdb: , group 3 (a greedy run) and a double quote. *)
Definition pdb_re : list tok :=
  lits (dquote +:+ "[RSDS] PdbSig: {")
    ++ [Open; DotStar; Lit "-"; DotStar; Lit "-"; DotStar; Lit "-";
        DotStar; Lit "-"; DotStar; Close]
    ++ lits "}; Age: " ++ [Open; DotStar; Close]
    ++ lits "; Pdb: " ++ [Open; DotStar; Close]
    ++ lits dquote.

(** [pdb_cached_re]: Found, a space, a greedy run, the text
    file - placed it in , and group 1 (a greedy run). *)
Definition pdb_cached_re : list tok :=
  lits "Found " ++ [DotStar] ++ lits "file - placed it in "
    ++ [Open; DotStar; Close].

End Re.

(** ** [os.path] on Windows (ntpath), for drive-letter paths

    The model covers the paths that do not begin with two separators:
    drive-letter paths, rooted paths and relative paths. For a path that
    begins with two separators ntpath takes a UNC share or a device as the
    drive, by rules that differ between Python versions; those are not
    modelled, and [has_unc_prefix] names them so that statements about
    whole paths can leave them out. *)

Module NtPath.

Definition is_sep (c : ascii) : bool :=
  Ascii.eqb c "\"%char || Ascii.eqb c "/"%char.

(** [p] begins with two separators, as a UNC or a device path does. *)
Definition has_unc_prefix (p : string) : bool :=
  match p with
  | String a (String b _) => is_sep a && is_sep b
  | _ => false
  end.

(** [splitdrive], for a [p] without UNC prefix: a drive is the first two
    characters when the second is a colon. *)
Definition splitdrive (p : string) : string * string :=
  match p with
  | String d (String ":" rest) => (String d (String ":" EmptyString), rest)
  | _ => (EmptyString, p)
  end.

(** The cut before the last separator: the head keeps its separators. *)
Fixpoint cut_last_sep (p : string) : string * string :=
  match p with
  | EmptyString => (EmptyString, EmptyString)
  | String c s =>
      match cut_last_sep s with
      | (EmptyString, t) =>
          if is_sep c then (String c EmptyString, t)
          else (EmptyString, String c t)
      | (h, t) => (String c h, t)
      end
  end.

Fixpoint rstrip_seps (h : string) : string :=
  match h with
  | EmptyString => EmptyString
  | String c s =>
      match rstrip_seps s with
      | EmptyString => if is_sep c then EmptyString else String c EmptyString
      | r => String c r
      end
  end.

(** [os.path.split(p)] *)
Definition split (p : string) : string * string :=
  let '(d, p) := splitdrive p in
  let '(head, tail) := cut_last_sep p in
  let head2 := rstrip_seps head in
  let head := match head2 with EmptyString => head | _ => head2 end in
  (d +:+ head, tail).

Definition lower (c : ascii) : ascii :=
  let n := nat_of_ascii c in
  if Nat.leb 65 n && Nat.leb n 90 then ascii_of_nat (n + 32) else c.

Fixpoint lower_str (s : string) : string :=
  match s with
  | EmptyString => EmptyString
  | String c s' => String (lower c) (lower_str s')
  end.

Definition starts_with_sep (p : string) : bool :=
  match p with
  | String c _ => is_sep c
  | EmptyString => false
  end.

Definition ends_with_sep (p : string) : bool :=
  match PyStr.last_char p with
  | Some c => is_sep c
  | None => false
  end.

(** One step of the loop of [os.path.join] on (drive, path). *)
Definition join_step (acc : string * string) (p : string) : string * string :=
  let '(result_drive, result_path) := acc in
  let '(p_drive, p_path) := splitdrive p in
  let relative (result_drive : string) :=
    let result_path :=
      match result_path with
      | EmptyString => result_path
      | _ => if ends_with_sep result_path then result_path
             else result_path +:+ "\"
      end in
    (result_drive, result_path +:+ p_path) in
  if starts_with_sep p_path then
    (match p_drive, result_drive with
     | EmptyString, String _ _ => result_drive
     | _, _ => p_drive
     end, p_path)
  else
    match p_drive with
    | EmptyString => relative result_drive
    | _ =>
        if String.eqb p_drive result_drive then relative result_drive
        else if String.eqb (lower_str p_drive) (lower_str result_drive)
             then relative p_drive
             else (p_drive, p_path)
    end.

(** [os.path.join(a, *ps)] *)
Definition join (a : string) (ps : list string) : string :=
  let '(d, p) := fold_left join_step ps (splitdrive a) in d +:+ p.

Definition to_backslash (c : ascii) : ascii :=
  if Ascii.eqb c "/"%char then "\"%char else c.

Fixpoint backslashes (s : string) : string :=
  match s with
  | EmptyString => EmptyString
  | String c s' => String (to_backslash c) (backslashes s')
  end.

Fixpoint lstrip_backslash (s : string) : string :=
  match s with
  | String "\" s' => lstrip_backslash s'
  | _ => s
  end.

(** The component loop of [normpath]; [done] holds the components kept so
    far, last first. *)
Fixpoint collapse (rooted : bool) (done : list string) (comps : list string)
  : list string :=
  match comps with
  | [] => rev done
  | c :: rest =>
      if String.eqb c "" || String.eqb c "." then collapse rooted done rest
      else if String.eqb c ".." then
        match done with
        | prev :: done' =>
            if String.eqb prev ".." then collapse rooted (c :: done) rest
            else collapse rooted done' rest
        | [] =>
            if rooted then collapse rooted done rest
            else collapse rooted (c :: done) rest
        end
      else collapse rooted (c :: done) rest
  end.

(** [os.path.normpath(path)] *)
Definition normpath (path : string) : string :=
  let path := backslashes path in
  let '(prefix, path) := splitdrive path in
  let '(prefix, path) :=
    if PyStr.eqb_prefix "\" path
    then (prefix +:+ "\", lstrip_backslash path)
    else (prefix, path) in
  let comps := collapse (ends_with_sep prefix) [] (PyStr.split_on "\" path) in
  let comps :=
    match prefix, comps with
    | EmptyString, [] => ["."]
    | _, _ => comps
    end in
  prefix +:+ PyStr.join "\" comps.

End NtPath.

(** ** The Python process: state, exceptions and the operating system *)

Module Py.

(** The objects a module-level name can be bound to. [PObj] is any other
    object (module, function, feature flag), with its [str()]. *)
Inductive pyval : Type :=
| PStr (s : string)
| PList (items : list string)
| PObj (repr : string).

Definition repr_str (s : string) : string := "'" +:+ s +:+ "'".

(** [str(v)], as the [%s] conversion computes it. *)
Definition py_str (v : pyval) : string :=
  match v with
  | PStr s => s
  | PList items => "[" +:+ PyStr.join ", " (map repr_str items) +:+ "]"
  | PObj r => r
  end.

Inductive exn : Type :=
| NameError (name : string)
| AttributeError (attr : string)
| IndexError
| IOError (path : string)
| OSError (path : string)
| SystemExit (code : Z).

Inductive result (A : Type) : Type :=
| Ok (a : A)
| Raise (e : exn).
Arguments Ok {A} a.
Arguments Raise {A} e.

(** The side effects the script requests from the operating system, in the
    order they take place. *)
Inductive event : Type :=
| EPopen (cmd : string)
| ECopy2 (src dst : string)
| ERename (src dst : string)
| EMkdtemp (dir : string)
| ERmtree (dir : string)
| ESetenv (name value : string).

(** [fs] holds the identities of the files and directories that exist. *)
Record state : Type := State {
  fs : gset string;
  environ : gmap string string;
  stdout : list string;
  events : list event;
  globals : gmap string pyval
}.

(** What lies outside the script: how the system resolves a path name to
    the identity of a file (current directory, case folding, links), what
    an external command prints and does to the file system, the name
    [tempfile.mkdtemp] picks, and whether the interpreter is Python 3
    (which decides what [str.strip()] removes). *)
Record host : Type := Host {
  resolve : string -> string;
  run_tool : string -> gmap string string -> gset string
             -> list string * gset string;
  mkdtemp_name : gset string -> string;
  python3 : bool
}.

Definition M (A : Type) : Type := state -> result A * state.

Definition ret {A} (a : A) : M A := fun s => (Ok a, s).

Definition bind {A B} (m : M A) (k : A -> M B) : M B :=
  fun s =>
    match m s with
    | (Ok a, s') => k a s'
    | (Raise e, s') => (Raise e, s')
    end.

Definition raise {A} (e : exn) : M A := fun s => (Raise e, s).

#[global] Instance M_ret : MRet M := @ret.
#[global] Instance M_bind : MBind M := fun A B k m => bind m k.

Definition set_fs (f : gset string) (s : state) : state :=
  State f (environ s) (stdout s) (events s) (globals s).
Definition set_environ (e : gmap string string) (s : state) : state :=
  State (fs s) e (stdout s) (events s) (globals s).
Definition add_line (line : string) (s : state) : state :=
  State (fs s) (environ s) (stdout s ++ [line]) (events s) (globals s).
Definition add_event (e : event) (s : state) : state :=
  State (fs s) (environ s) (stdout s) (events s ++ [e]) (globals s).
Definition set_globals (g : gmap string pyval) (s : state) : state :=
  State (fs s) (environ s) (stdout s) (events s) g.

(** [print(line)] *)
Definition print (line : string) : M unit := fun s => (Ok tt, add_line line s).

(** [sys.exit(code)] raises [SystemExit]. *)
Definition sys_exit {A} (code : Z) : M A := raise (SystemExit code).

(** [l[i]] *)
Definition index (l : list string) (i : nat) : M string :=
  match nth_error l i with
  | Some x => ret x
  | None => raise IndexError
  end.

(** Loading a name that the function neither binds nor receives: Python
    looks it up in the module namespace (then in the builtins, which bind
    none of the names the script loads this way). *)
Definition load_global (name : string) : M pyval :=
  fun s =>
    match globals s !! name with
    | Some v => (Ok v, s)
    | None => (Raise (NameError name), s)
    end.

(** [name.append(x)] on a module-level name: the list object is mutated in
    place, so every later load of the name sees the new element. *)
Definition append_global (name : string) (x : string) : M unit :=
  v ← load_global name;
  match v with
  | PList items =>
      fun s => (Ok tt, set_globals (<[name := PList (items ++ [x])]> (globals s)) s)
  | _ => raise (AttributeError "append")
  end.

Section OS.
Context (h : host).

(** [os.path.exists(p)] *)
Definition path_exists (p : string) : M bool :=
  fun s => (Ok (bool_decide (resolve h p ∈ fs s)), s).

(** [os.environ.get(name, default)] *)
Definition environ_get (name default : string) : M string :=
  fun s => (Ok (match environ s !! name with Some v => v | None => default end), s).

(** [os.environ[name] = value] *)
Definition setenv (name value : string) : M unit :=
  fun s => (Ok tt, add_event (ESetenv name value)
                     (set_environ (<[name := value]> (environ s)) s)).

(** [os.popen(cmd)], read to the end: the lines keep their terminators. *)
Definition popen (cmd : string) : M (list string) :=
  fun s =>
    let '(out, fs') := run_tool h cmd (environ s) (fs s) in
    (Ok out, add_event (EPopen cmd) (set_fs fs' s)).

(** [shutil.copy2(src, dst)]: fails when the source does not exist. *)
Definition copy2 (src dst : string) : M unit :=
  fun s =>
    if bool_decide (resolve h src ∈ fs s)
    then (Ok tt, add_event (ECopy2 src dst) (set_fs ({[resolve h dst]} ∪ fs s) s))
    else (Raise (IOError src), s).

(** [os.rename(src, dst)] on Windows: fails when the source does not
    exist or the destination does. *)
Definition rename (src dst : string) : M unit :=
  fun s =>
    if bool_decide (resolve h src ∈ fs s) then
      if bool_decide (resolve h dst ∈ fs s) then (Raise (OSError dst), s)
      else (Ok tt, add_event (ERename src dst)
                     (set_fs ({[resolve h dst]} ∪ (fs s ∖ {[resolve h src]})) s))
    else (Raise (OSError src), s).

(** [tempfile.mkdtemp()] *)
Definition mkdtemp : M string :=
  fun s =>
    let d := mkdtemp_name h (fs s) in
    (Ok d, add_event (EMkdtemp d) (set_fs ({[resolve h d]} ∪ fs s) s)).

(** [q] is [d] or lies beneath it. *)
Definition beneath (d q : string) : bool :=
  String.eqb d q || PyStr.eqb_prefix (d +:+ "\") q.

(** [shutil.rmtree(d, ignore_errors=True)]: never raises; the tree is taken
    to be deleted in full. *)
Definition rmtree (d : string) : M unit :=
  fun s =>
    (Ok tt, add_event (ERmtree d)
              (set_fs (filter (fun q => beneath (resolve h d) q = false) (fs s)) s)).
End OS.

(** [for x in l: body] *)
Fixpoint for_each {A} (l : list A) (body : A -> M unit) : M unit :=
  match l with
  | [] => mret tt
  | x :: l' => body x ;; for_each l' body
  end.

(** [for x in l: body], where the body updates a local variable. *)
Fixpoint for_fold {A B} (l : list A) (acc : B) (body : A -> B -> M B) : M B :=
  match l with
  | [] => mret acc
  | x :: l' => acc' ← body x acc; for_fold l' acc' body
  end.

(** The truth value of a variable that holds [None] or a string. *)
Definition truthy (o : option string) : bool :=
  match o with
  | Some (String _ _) => true
  | _ => false
  end.

(** The exit status of the interpreter: 0 when [main] returns, the
    argument of [sys.exit], 1 after any other uncaught exception. *)
Definition exit_status {A} (r : result A) : Z :=
  match r with
  | Ok _ => 0
  | Raise (SystemExit code) => code
  | Raise _ => 1
  end.

End Py.

(** ** The script *)

Module Script.
Import Py.

(** The names bound in the module namespace when [main()] is called: the
    interpreter's own, the imports of lines 42-49 and the two functions. *)
Definition module_names : list string :=
  ["__name__"; "__doc__"; "__file__"; "__builtins__"; "print_function";
   "os"; "sys"; "re"; "tempfile"; "shutil"; "subprocess";
   "run_and_look_for_matches"; "main"].

Definition module_namespace : gmap string pyval :=
  list_to_map (map (fun n => (n, PObj n)) module_names).

(** The parameter and the local variables of [run_and_look_for_matches]:
    the names it binds itself. *)
Definition scan_locals : list string :=
  ["command"; "found_uncached"; "pdb_re"; "pdb_cached_re"; "command_output";
   "line"; "match"; "guid"; "age"; "path"; "filepart"; "symcache_file";
   "pdb_cache_path"; "retrieve_ommand"; "subline"; "cache_match";
   "tempdir"; "dest_path"; "copyline"].

(** The state of a fresh interpreter that has loaded the module. *)
Definition initial (files : gset string) (env : gmap string string) : state :=
  State files env [] [] module_namespace.

(** Line 71: the symcache file name for a dash-free signature and an age. *)
Definition symcache_name (guid age : string) : string :=
  "c:\symcache\chrome.dll-" +:+ guid +:+ age +:+ "v2.symcache".

(** Line 65 *)
Definition mentions_chrome (line : string) : bool :=
  Nat.ltb 0 (PyStr.count line "chrome.dll")
  || Nat.ltb 0 (PyStr.count line "chrome_child.dll").

Section Functions.
Context (h : host).

(** Lines 65-100: the body of the loop over the enumerator's output.
    The result is the new value of [found_uncached]. *)
Definition scan_line (line : string) (found_uncached : bool) : M bool :=
  if mentions_chrome line then
    match Re.match_groups Re.pdb_re line with
    | Some [guid; age; path] =>
        let guid := PyStr.replace guid "-" "" in
        let filepart := (NtPath.split path).2 in
        let symcache_file := symcache_name guid age in
        cached ← path_exists h symcache_file;
        if cached : bool then mret found_uncached
        else
          let found_uncached := true in
          print ("Found uncached reference to " +:+ filepart +:+ ": "
                   +:+ guid +:+ " - " +:+ age) ;;
          append_global "symcache_files" symcache_file ;;
          let pdb_cache_path : option string := None in
          retrieve_path ← load_global "retrieve_path";
          let retrieve_ommand :=
            py_str retrieve_path +:+ " " +:+ guid +:+ " " +:+ age
              +:+ " " +:+ filepart in
          print ("> " +:+ retrieve_ommand) ;;
          sublines ← popen h retrieve_ommand;
          pdb_cache_path ←
            for_fold sublines pdb_cache_path
              (fun subline pdb_cache_path =>
                 print (PyStr.strip (python3 h) subline) ;;
                 match Re.match_groups Re.pdb_cached_re
                         (PyStr.strip (python3 h) subline) with
                 | Some (placed :: _) => mret (Some placed)
                 | _ => mret pdb_cache_path
                 end);
          pdb_cache_path ←
            (if negb (truthy pdb_cache_path) then
               is_local ← path_exists h path;
               if is_local : bool then
                 append_global "local_symbol_files" path ;;
                 mret (Some path)
               else mret pdb_cache_path
             else mret pdb_cache_path);
          (if truthy pdb_cache_path then
             let pdb_cache_path := default "" pdb_cache_path in
             tempdir ← mkdtemp h;
             append_global "tempdirs" tempdir ;;
             let dest_path :=
               NtPath.join tempdir [(NtPath.split pdb_cache_path).2] in
             print ("Copying PDB to " +:+ dest_path) ;;
             pdbcopy_path ← load_global "pdbcopy_path";
             copylines ← popen h (py_str pdbcopy_path +:+ " " +:+ pdb_cache_path
                                    +:+ " " +:+ dest_path +:+ " -p");
             for_each copylines (fun copyline => print (PyStr.strip (python3 h) copyline))
           else
             print "Failed to retrieve symbols. Check for RetrieveSymbols.exe and support files.") ;;
          mret found_uncached
    | _ => mret found_uncached
    end
  else mret found_uncached.

(** Lines 51-101 *)
Definition run_and_look_for_matches (command : string) : M bool :=
  let found_uncached := false in
  command_output ← popen h command;
  for_fold command_output found_uncached scan_line.

(** Lines 105-134 of [main]: usage, the symbol-server gate, the support
    files and the two tools. *)
Definition preflight (sys_argv : list string) : M unit :=
  (if Nat.ltb (length sys_argv) 2 then
     argv0 ← index sys_argv 0;
     print ("Usage: " +:+ argv0 +:+ " trace.etl") ;;
     sys_exit 0
   else mret tt) ;;
  symbol_path ← environ_get "_NT_SYMBOL_PATH" "";
  (if Nat.eqb (PyStr.count symbol_path "chromium-browser-symsrv") 0 then
     print "Chromium symbol server is not in _NT_SYMBOL_PATH. No symbol stripping needed." ;;
     sys_exit 0
   else mret tt) ;;
  argv0 ← index sys_argv 0;
  let script_dir := (NtPath.split argv0).1 in
  let retrieve_path := NtPath.join script_dir ["RetrieveSymbols.exe"] in
  let pdbcopy_path := NtPath.join script_dir ["pdbcopy.exe"] in
  for_each ["pdbcopy.exe"; "dbghelp.dll"; "symsrv.dll"]
    (fun third_party =>
       present ← path_exists h third_party;
       if negb present then
         let source :=
           NtPath.normpath (NtPath.join script_dir ["..\third_party"; third_party]) in
         let dest := NtPath.normpath (NtPath.join script_dir [third_party]) in
         copy2 h source dest
       else mret tt) ;;
  present ← path_exists h pdbcopy_path;
  (if negb present then
     print "pdbcopy.exe not found. No symbol stripping is possible." ;;
     sys_exit 0
   else mret tt) ;;
  present ← path_exists h retrieve_path;
  (if negb present then
     print "RetrieveSymbols.exe not found. No symbol retrieval is possible." ;;
     sys_exit 0
   else mret tt).

(** Line 164 *)
Definition gen_command (tracename : string) : string :=
  "xperf -i " +:+ dquote +:+ tracename +:+ dquote
    +:+ " -symbols -tle -tti -a symcache -build".

(** Lines 156-171 of [main]: point the symbol path at the stripped PDBs,
    move the local PDBs out of the way, build, move them back. *)
Definition rebuild (tracename : string) (tempdirs local_symbol_files : list string)
  : M unit :=
  let symbol_path := PyStr.join ";" tempdirs in
  print ("Stripped PDBs are in " +:+ symbol_path
           +:+ ". Converting to symcache files now.") ;;
  setenv "_NT_SYMBOL_PATH" symbol_path ;;
  for_each local_symbol_files
    (fun local_pdb =>
       let temp_name := local_pdb +:+ "x" in
       print ("Renaming " +:+ local_pdb +:+ " to " +:+ temp_name
                +:+ " to stop unstripped PDBs from being used.") ;;
       rename h local_pdb temp_name) ;;
  let gen_command := gen_command tracename in
  print ("> " +:+ gen_command) ;;
  _ ← popen h gen_command;
  for_each local_symbol_files
    (fun local_pdb =>
       let temp_name := local_pdb +:+ "x" in
       rename h temp_name local_pdb).

(** Lines 173-185 of [main]: check every expected symcache file, then
    delete the stripped PDBs unless one is missing. *)
Definition verify_and_cleanup (tempdirs symcache_files : list string) : M unit :=
  let error := false in
  error ←
    for_fold symcache_files error
      (fun symcache_file error =>
         generated ← path_exists h symcache_file;
         if generated : bool then
           print (symcache_file +:+ " generated.") ;; mret error
         else
           print ("Error: " +:+ symcache_file +:+ " not generated.") ;;
           mret true);
  if error : bool then
    print "Retaining PDBs to allow rerunning xperf command-line."
  else
    for_each tempdirs (fun directory => rmtree h directory).

(** Line 150 *)
Definition scan_command (tracename : string) : string :=
  "xperf -i " +:+ dquote +:+ tracename +:+ dquote
    +:+ " -tle -tti -a symcache -dbgid".

(** Lines 136-190 of [main]. The three lists are local variables of
    [main]; no reference to them is passed to
    [run_and_look_for_matches]. *)
Definition translate (sys_argv : list string) : M unit :=
  tracename ← index sys_argv 1;
  let tempdirs : list string := [] in
  print "Pre-translating chrome symbols from stripped PDBs to avoid 10-15 minute translation times." ;;
  let symcache_files : list string := [] in
  let local_symbol_files : list string := [] in
  let command := scan_command tracename in
  print ("> " +:+ command) ;;
  found_uncached ← run_and_look_for_matches command;
  match tempdirs with
  | _ :: _ =>
      rebuild tracename tempdirs local_symbol_files ;;
      verify_and_cleanup tempdirs symcache_files
  | [] =>
      if found_uncached : bool then print "No PDBs copied, nothing to do."
      else print "No uncached PDBS found, nothing to do."
  end.

(** Lines 104-190 *)
Definition main (sys_argv : list string) : M unit :=
  preflight sys_argv ;; translate sys_argv.

(** A run of the script: [python StripChromeSymbols.py args] in a fresh
    interpreter. *)
Definition run (argv0 : string) (args : list string)
           (files : gset string) (env : gmap string string)
  : result unit * state :=
  main (argv0 :: args) (initial files env).

End Functions.
End Script.

(** ** Vocabulary for the scan (lines 64-78) *)

Module Scan.
Import Py Script.

(** The symbol reference a line of the enumerator's output stands for:
    the dash-free signature, the age and the PDB path. *)
Definition reference (line : string) : option (string * string * string) :=
  if mentions_chrome line then
    match Re.match_groups Re.pdb_re line with
    | Some [guid; age; path] => Some (PyStr.replace guid "-" "", age, path)
    | _ => None
    end
  else None.

(** The line is no reference, or its symcache file exists. *)
Definition settled (h : host) (files : gset string) (line : string) : Prop :=
  match reference line with
  | Some (guid, age, _) => resolve h (symcache_name guid age) ∈ files
  | None => True
  end.

(** The line is a reference whose symcache file is missing. *)
Definition uncached (h : host) (files : gset string) (line : string) : Prop :=
  match reference line with
  | Some (guid, age, _) => resolve h (symcache_name guid age) ∉ files
  | None => False
  end.

Definition found_message (guid age path : string) : string :=
  "Found uncached reference to " +:+ (NtPath.split path).2 +:+ ": "
    +:+ guid +:+ " - " +:+ age.

Definition free_names : list string :=
  ["symcache_files"; "local_symbol_files"; "tempdirs"; "retrieve_path";
   "pdbcopy_path"].

#[global] Instance settled_dec h files line : Decision (settled h files line).
Proof.
  unfold settled. destruct (reference line) as [[[guid age] path]|]; apply _.
Defined.

#[global] Instance uncached_dec h files line : Decision (uncached h files line).
Proof.
  unfold uncached. destruct (reference line) as [[[guid age] path]|]; apply _.
Defined.

End Scan.

(** ** Vocabulary for a whole run *)

Module Run.
Import Py Script.

(** Line 143 *)
Definition pretranslating : string :=
  "Pre-translating chrome symbols from stripped PDBs to avoid 10-15 minute translation times.".

(** The state in which the enumerator is started (lines 143 and 151). *)
Definition before_scan (tracename : string) (s : state) : state :=
  add_line ("> " +:+ scan_command tracename) (add_line pretranslating s).

(** The line that lines 175-178 print for an expected symcache file. *)
Definition verdict (generated : string -> bool) (symcache_file : string) : string :=
  if generated symcache_file then symcache_file +:+ " generated."
  else "Error: " +:+ symcache_file +:+ " not generated.".

Section WithHost.
Context (h : host).

(** The state after the enumerator has run. *)
Definition after_scan_command (command : string) (s : state) : state :=
  add_event (EPopen command)
    (set_fs (run_tool h command (environ s) (fs s)).2 s).

Definition scan_output (command : string) (s : state) : list string :=
  (run_tool h command (environ s) (fs s)).1.

End WithHost.
End Run.

(** ** Sample machines *)

Module Examples.
Import Py Script.

(** [os.path.abspath] for a process whose current directory is [cwd]. *)
Definition abspath (cwd p : string) : string :=
  NtPath.normpath (NtPath.join cwd [p]).

(** A line of [xperf -a symcache -dbgid], without its line terminator. *)
Definition rsds (sig age pdb : string) : string :=
  dquote +:+ "[RSDS] PdbSig: {" +:+ sig +:+ "}; Age: " +:+ age
    +:+ "; Pdb: " +:+ pdb +:+ dquote.

Definition chrome_line : string :=
  rsds "AAAAAAAA-BBBB-CCCC-DDDD-EEEEEEEEEEEE" "3" "C:\x\chrome.dll.pdb".

Definition chrome_line_lower : string :=
  rsds "aaaaaaaa-bbbb-cccc-dddd-eeeeeeeeeeee" "3" "C:\x\chrome.dll.pdb".

Definition chrome_child_line : string :=
  rsds "be90dbc6-fe31-4842-9c72-7e2ea88f0adf" "1"
    "C:\b\build\src\out\Release\chrome_child.dll.pdb".

Definition kernel_line : string :=
  rsds "11111111-2222-3333-4444-555555555555" "2" "ntkrnlmp.pdb".

Definition chrome_symcache : string :=
  "c:\symcache\chrome.dll-AAAAAAAABBBBCCCCDDDDEEEEEEEEEEEE3v2.symcache".

Definition chrome_child_symcache : string :=
  "c:\symcache\chrome.dll-be90dbc6fe3148429c727e2ea88f0adf1v2.symcache".

Definition is_scan (cmd : string) : bool :=
  Nat.ltb 0 (PyStr.count cmd "-dbgid").

(** A machine on which the enumerator prints [lines], no other tool prints
    anything, no tool touches the file system, and Python 2 runs the
    script. *)
Definition machine (cwd : string) (lines : list string) : host :=
  Host (abspath cwd)
       (fun cmd _ files =>
          if is_scan cmd then (map (fun l => l +:+ newline) lines, files)
          else ([], files))
       (fun _ => "C:\Temp\tmpa1b2c3")
       false.

Definition symbol_env : gmap string string :=
  {[ "_NT_SYMBOL_PATH" :=
       "SRV*c:\symbols*https://chromium-browser-symsrv.commondatastorage.googleapis.com" ]}.

Definition script : string := "C:\etw\bin\StripChromeSymbols.py".

(** The tools as they are installed next to the script. *)
Definition installed : gset string :=
  list_to_set ["C:\etw\bin\pdbcopy.exe"; "C:\etw\bin\dbghelp.dll";
               "C:\etw\bin\symsrv.dll"; "C:\etw\bin\RetrieveSymbols.exe"].

(** The script directory lacks pdbcopy.exe, the third_party directory has
    all three support files, and the current directory, C:\traces, holds a
    pdbcopy.exe of its own. *)
Definition stray_pdbcopy : gset string :=
  list_to_set ["C:\etw\bin\RetrieveSymbols.exe";
               "C:\etw\third_party\pdbcopy.exe";
               "C:\etw\third_party\dbghelp.dll";
               "C:\etw\third_party\symsrv.dll";
               "C:\traces\pdbcopy.exe"].

End Examples.

(** ** Vocabulary for text *)

Module Text.

(** [c] occurs in [s]. *)
Fixpoint has_char (c : ascii) (s : string) : bool :=
  match s with
  | EmptyString => false
  | String x s' => Ascii.eqb x c || has_char c s'
  end.

(** [s] holds no line feed: what a greedy run of the patterns can match. *)
Definition no_lf (s : string) : Prop := has_char "010"%char s = false.

(** [s] without its occurrences of [c]. *)
Fixpoint delete_char (c : ascii) (s : string) : string :=
  match s with
  | EmptyString => EmptyString
  | String x s' => if Ascii.eqb x c then delete_char c s' else String x (delete_char c s')
  end.

(** [s] holds no path separator. *)
Definition no_sep (s : string) : Prop :=
  has_char "\" s = false /\ has_char "/" s = false.



(** [sub] occurs in [s]. *)
Definition occurs (sub s : string) : Prop :=
  exists pre post, s = pre +:+ sub +:+ post.

End Text.

(** ** Vocabulary for effects *)

Module Effects.
Import Py Script.

(** Line 121 *)
Definition support_files : list string := ["pdbcopy.exe"; "dbghelp.dll"; "symsrv.dll"].

(** Lines 123-125 *)
Definition copy_source (script_dir third_party : string) : string :=
  NtPath.normpath (NtPath.join script_dir ["..\third_party"; third_party]).

Definition copy_dest (script_dir third_party : string) : string :=
  NtPath.normpath (NtPath.join script_dir [third_party]).

Definition copy_event (script_dir third_party : string) : event :=
  ECopy2 (copy_source script_dir third_party) (copy_dest script_dir third_party).

(** [e] is a call of [shutil.copy2]. *)
Definition is_copy (e : event) : Prop := exists source dest, e = ECopy2 source dest.

(** Lines 109-110: how often the symbol path names the Chromium symbol
    server; an unset variable counts as the empty string. *)
Definition marker_count (s : state) : nat :=
  PyStr.count (match environ s !! "_NT_SYMBOL_PATH" with Some v => v | None => "" end)
    "chromium-browser-symsrv".

(** [s] after the lines have been printed. *)
Definition add_lines (lines : list string) (s : state) : state :=
  State (fs s) (environ s) (stdout s ++ lines) (events s) (globals s).

(** Lines 79-86: the path that the last success line of the retrieval
    tool's output names, if any. *)
Definition placed_by (python3 : bool) (sublines : list string) : option string :=
  fold_left
    (fun pdb_cache_path subline =>
       match Re.match_groups Re.pdb_cached_re (PyStr.strip python3 subline) with
       | Some (placed :: _) => Some placed
       | _ => pdb_cache_path
       end)
    sublines None.

(** Line 80 *)
Definition retrieve_command (retrieve_path : pyval) (guid age path : string) : string :=
  py_str retrieve_path +:+ " " +:+ guid +:+ " " +:+ age +:+ " " +:+ (NtPath.split path).2.

(** Line 97 *)
Definition pdbcopy_command (pdbcopy_path : pyval) (source dest_path : string) : string :=
  py_str pdbcopy_path +:+ " " +:+ source +:+ " " +:+ dest_path +:+ " -p".

Definition failed_message : string :=
  "Failed to retrieve symbols. Check for RetrieveSymbols.exe and support files.".

Section WithHost.
Context (h : host).

(** Lines 87-101: the rest of the loop body once the retrieval tool's output
    has been read, for an uncached reference to [path]. *)
Definition finish_reference (path : string) (pdb_cache_path : option string) : M bool :=
  pdb_cache_path ←
    (if negb (truthy pdb_cache_path) then
       is_local ← path_exists h path;
       if is_local : bool then
         append_global "local_symbol_files" path ;;
         mret (Some path)
       else mret pdb_cache_path
     else mret pdb_cache_path);
  (if truthy pdb_cache_path then
     let pdb_cache_path := default "" pdb_cache_path in
     tempdir ← mkdtemp h;
     append_global "tempdirs" tempdir ;;
     let dest_path := NtPath.join tempdir [(NtPath.split pdb_cache_path).2] in
     print ("Copying PDB to " +:+ dest_path) ;;
     pdbcopy_path ← load_global "pdbcopy_path";
     copylines ← popen h (py_str pdbcopy_path +:+ " " +:+ pdb_cache_path
                            +:+ " " +:+ dest_path +:+ " -p");
     for_each copylines (fun copyline => print (PyStr.strip (python3 h) copyline))
   else
     print "Failed to retrieve symbols. Check for RetrieveSymbols.exe and support files.") ;;
  mret true.

(** The state of the loop body after lines 76-86, for a reference with the
    symcache file [name], when [symcache_files] holds [expected] and the
    retrieval command [cmd] has printed [out] and left the files [files]. *)
Definition after_retrieval (s : state) (guid age path : string)
           (expected : list string) (cmd : string) (out : list string)
           (files : gset string) : state :=
  add_lines (map (PyStr.strip (python3 h)) out)
    (add_event (EPopen cmd)
       (set_fs files
          (add_line ("> " +:+ cmd)
             (set_globals
                (<["symcache_files" := PList (expected ++ [symcache_name guid age])]>
                   (globals s))
                (add_line (Scan.found_message guid age path) s))))).

(** The state after lines 93-98 have stripped [source] in state [t], when
    [tempdirs] holds [dirs] and [pdbcopy_path] is bound to [pdbcopy_path]. *)
Definition strip_dir (t : state) : string := mkdtemp_name h (fs t).

Definition strip_dest (t : state) (source : string) : string :=
  NtPath.join (strip_dir t) [(NtPath.split source).2].

Definition strip_run (t : state) (source : string) (pdbcopy_path : pyval)
  : list string * gset string :=
  run_tool h (pdbcopy_command pdbcopy_path source (strip_dest t source))
    (environ t) ({[resolve h (strip_dir t)]} ∪ fs t).

Definition after_strip (t : state) (source : string) (dirs : list string)
           (pdbcopy_path : pyval) : state :=
  add_lines (map (PyStr.strip (python3 h)) (strip_run t source pdbcopy_path).1)
    (add_event (EPopen (pdbcopy_command pdbcopy_path source (strip_dest t source)))
       (set_fs (strip_run t source pdbcopy_path).2
          (add_line ("Copying PDB to " +:+ strip_dest t source)
             (set_globals (<["tempdirs" := PList (dirs ++ [strip_dir t])]> (globals t))
                (add_event (EMkdtemp (strip_dir t))
                   (set_fs ({[resolve h (strip_dir t)]} ∪ fs t) t)))))).

End WithHost.

End Effects.

(** ** More sample machines *)

Module Samples.
Import Py Script Examples.

(** A module namespace in which the five names that
    [run_and_look_for_matches] loads are bound at module level. *)
Definition bound_namespace : gmap string pyval :=
  <["symcache_files" := PList []]>
    (<["local_symbol_files" := PList []]>
       (<["tempdirs" := PList []]>
          (<["retrieve_path" := PStr "C:\etw\bin\RetrieveSymbols.exe"]>
             (<["pdbcopy_path" := PStr "C:\etw\bin\pdbcopy.exe"]> module_namespace)))).

Definition bound_state (files : gset string) : state :=
  State files symbol_env [] [] bound_namespace.

(** A machine on which RetrieveSymbols.exe prints [out], no tool touches
    the file system, and Python 3 runs the script. *)
Definition retriever (out : list string) : host :=
  Host (abspath "C:\etw\bin")
       (fun cmd _ files =>
          if PyStr.eqb_prefix "C:\etw\bin\RetrieveSymbols.exe" cmd
          then (map (fun l => l +:+ newline) out, files)
          else ([], files))
       (fun _ => "C:\Temp\tmpa1b2c3")
       true.

Definition placed_line_text : string :=
  "Found symbol file - placed it in c:\sym\chrome.dll.pdb".

Definition placed_line : string :=
  "Found symbol file - placed it in c:\symbols\chrome.dll.pdb\AAAA3\chrome.dll.pdb".

End Samples.

(** * Facts *)

(** ** The library functions on sample inputs *)

Example count_overlap : PyStr.count "aaaa" "aa" = 2.
Proof. reflexivity. Qed.

Example replace_dashes : PyStr.replace "be90-fe31-48" "-" "" = "be90fe3148".
Proof. reflexivity. Qed.

Example strip_both : PyStr.strip false ("  a b " +:+ newline) = "a b".
Proof. reflexivity. Qed.

Example split_pdb :
  NtPath.split "C:\b\build\chrome.dll.pdb" = ("C:\b\build", "chrome.dll.pdb").
Proof. reflexivity. Qed.

Example split_bare : NtPath.split "StripChromeSymbols.py" = ("", "StripChromeSymbols.py").
Proof. reflexivity. Qed.

Example split_root : NtPath.split "C:\x.py" = ("C:\", "x.py").
Proof. reflexivity. Qed.

Example join_dir : NtPath.join "C:\tools" ["pdbcopy.exe"] = "C:\tools\pdbcopy.exe".
Proof. reflexivity. Qed.

Example join_empty : NtPath.join "" ["pdbcopy.exe"] = "pdbcopy.exe".
Proof. reflexivity. Qed.

Example normpath_third_party :
  NtPath.normpath (NtPath.join "C:\etw\bin" ["..\third_party"; "symsrv.dll"])
  = "C:\etw\third_party\symsrv.dll".
Proof. reflexivity. Qed.

Example normpath_relative :
  NtPath.normpath (NtPath.join "" ["..\third_party"; "symsrv.dll"])
  = "..\third_party\symsrv.dll".
Proof. reflexivity. Qed.

Example pdb_re_typical :
  Re.match_groups Re.pdb_re
    (dquote +:+ "[RSDS] PdbSig: {be90dbc6-fe31-4842-9c72-7e2ea88f0adf}; Age: 1; Pdb: C:\b\chrome.dll.pdb"
       +:+ dquote +:+ newline)
  = Some ["be90dbc6-fe31-4842-9c72-7e2ea88f0adf"; "1"; "C:\b\chrome.dll.pdb"].
Proof. vm_compute. reflexivity. Qed.

Example pdb_cached_re_typical :
  Re.match_groups Re.pdb_cached_re "Found symbol file - placed it in c:\sym\chrome.dll.pdb"
  = Some ["c:\sym\chrome.dll.pdb"].
Proof. vm_compute. reflexivity. Qed.

(** ** Reasoning about the monad *)

Section MonadFacts.
Import Py.

Lemma bind_run {A B} (m : M A) (k : A -> M B) (s : state) :
  (m ≫= k) s
  = match m s with
    | (Ok a, s') => k a s'
    | (Raise e, s') => (Raise e, s')
    end.
Proof. reflexivity. Qed.

Lemma bind_ok {A B} (m : M A) (k : A -> M B) (s s' : state) (a : A) :
  m s = (Ok a, s') -> (m ≫= k) s = k a s'.
Proof. intros E. rewrite bind_run, E. reflexivity. Qed.

Lemma bind_raise {A B} (m : M A) (k : A -> M B) (s s' : state) (e : exn) :
  m s = (Raise e, s') -> (m ≫= k) s = (Raise e, s').
Proof. intros E. rewrite bind_run, E. reflexivity. Qed.

Lemma ret_run {A} (a : A) (s : state) : (mret a : M A) s = (Ok a, s).
Proof. reflexivity. Qed.

Lemma for_fold_cons {A B} (x : A) (l : list A) (acc : B) (body : A -> B -> M B) :
  for_fold (x :: l) acc body = (body x acc ≫= fun acc' => for_fold l acc' body).
Proof. reflexivity. Qed.

Lemma for_each_cons {A} (x : A) (l : list A) (body : A -> M unit) :
  for_each (x :: l) body = (body x ≫= fun _ => for_each l body).
Proof. reflexivity. Qed.

(** A loop whose body leaves the state and the accumulator alone does
    nothing. *)
Lemma for_fold_idle {A B} (l : list A) (acc : B) (body : A -> B -> M B) (s : state) :
  Forall (fun x => body x acc s = (Ok acc, s)) l ->
  for_fold l acc body s = (Ok acc, s).
Proof.
  induction 1 as [|x l Hx _ IH]; [reflexivity|].
  rewrite for_fold_cons. rewrite (bind_ok _ _ _ _ _ Hx). exact IH.
Qed.

End MonadFacts.

(** ** The scan (lines 64-78) *)

Section ScanFacts.
Import Py Script Scan.

Lemma settled_or_uncached h files line :
  settled h files line \/ uncached h files line.
Proof.
  unfold settled, uncached. destruct (reference line) as [[[g a] p]|]; [|by left].
  destruct (decide (resolve h (symcache_name g a) ∈ files)); [by left|by right].
Qed.

Lemma scan_line_settled h line found s :
  settled h (fs s) line -> scan_line h line found s = (Ok found, s).
Proof.
  unfold settled, reference, scan_line.
  destruct (mentions_chrome line); [|reflexivity].
  destruct (Re.match_groups Re.pdb_re line) as [[|g [|a [|p [|? ?]]]]|];
    try reflexivity.
  intros Hin. rewrite bind_run. unfold path_exists.
  rewrite bool_decide_eq_true_2 by exact Hin. reflexivity.
Qed.

Lemma scan_line_uncached h line found s guid age path :
  reference line = Some (guid, age, path) ->
  resolve h (symcache_name guid age) ∉ fs s ->
  globals s !! "symcache_files" = None ->
  scan_line h line found s
  = (Raise (NameError "symcache_files"), add_line (found_message guid age path) s).
Proof.
  unfold reference, scan_line.
  destruct (mentions_chrome line); [|discriminate].
  destruct (Re.match_groups Re.pdb_re line) as [[|g [|a [|p [|? ?]]]]|];
    try discriminate.
  intros [= <- <- <-] Hout Hfree. rewrite bind_run. unfold path_exists.
  rewrite bool_decide_eq_false_2 by exact Hout.
  rewrite bind_run. unfold print at 1. rewrite bind_run.
  unfold append_global. rewrite bind_run. unfold load_global.
  cbn [globals add_line]. rewrite Hfree. reflexivity.
Qed.

(** The loop over the enumerator's output either runs to its end, having
    found every line settled, or stops at the first uncached reference. *)
Lemma scan_loop h lines found s :
  globals s !! "symcache_files" = None ->
  (Forall (settled h (fs s)) lines
   /\ for_fold lines found (scan_line h) s = (Ok found, s))
  \/ (Exists (uncached h (fs s)) lines
      /\ exists guid age path,
           for_fold lines found (scan_line h) s
           = (Raise (NameError "symcache_files"),
              add_line (found_message guid age path) s)).
Proof.
  intros Hfree. induction lines as [|line lines IH].
  - left. split; [constructor|reflexivity].
  - rewrite for_fold_cons.
    destruct (settled_or_uncached h (fs s) line) as [Hs|Hu].
    + rewrite (bind_ok _ _ _ _ _ (scan_line_settled h line found s Hs)).
      destruct IH as [[Hall E]|[Hex E]].
      * left. split; [by constructor|exact E].
      * right. split; [by apply Exists_cons_tl|exact E].
    + right. split; [by apply Exists_cons_hd|].
      unfold uncached in Hu.
      destruct (reference line) as [[[g a] p]|] eqn:Href; [|done].
      exists g, a, p.
      apply bind_raise. by apply scan_line_uncached.
Qed.

Lemma settled_not_uncached h files line :
  settled h files line -> uncached h files line -> False.
Proof.
  unfold settled, uncached. destruct (reference line) as [[[g a] p]|]; tauto.
Qed.

Lemma Forall_settled_not_Exists_uncached h files lines :
  Forall (settled h files) lines -> Exists (uncached h files) lines -> False.
Proof.
  intros Hall Hex. apply Exists_exists in Hex as (line & Hin & Hu).
  rewrite Forall_forall in Hall. eapply settled_not_uncached; eauto.
Qed.

End ScanFacts.

(** ** The whole run *)

Section RunFacts.
Import Py Script Scan Run.
Context (h : host).

Lemma run_and_look_for_matches_cases command s :
  globals s !! "symcache_files" = None ->
  let s1 := after_scan_command h command s in
  let out := scan_output h command s in
  (Forall (settled h (fs s1)) out
   /\ run_and_look_for_matches h command s = (Ok false, s1))
  \/ (Exists (uncached h (fs s1)) out
      /\ exists guid age path,
           run_and_look_for_matches h command s
           = (Raise (NameError "symcache_files"),
              add_line (found_message guid age path) s1)).
Proof.
  intros Hfree s1 out. unfold run_and_look_for_matches.
  rewrite bind_run. unfold popen.
  subst s1 out. unfold after_scan_command, scan_output.
  destruct (run_tool h command (environ s) (fs s)) as [out fs'].
  cbn [fst snd]. apply scan_loop. exact Hfree.
Qed.

(** The copy loop of lines 121-126 stops at the first support file that
    is neither found nor available for copying. *)
Lemma copy_loop_cases (script_dir : string) (names : list string) (s : state) :
  let loop :=
    for_each names
      (fun third_party =>
         present ← path_exists h third_party;
         if negb present then
           copy2 h
             (NtPath.normpath (NtPath.join script_dir ["..\third_party"; third_party]))
             (NtPath.normpath (NtPath.join script_dir [third_party]))
         else mret tt) in
  exists s',
    globals s' = globals s /\ stdout s' = stdout s /\ environ s' = environ s
    /\ (loop s = (Ok tt, s') \/ exists p, loop s = (Raise (IOError p), s')).
Proof.
  cbn zeta. revert s. induction names as [|n names IH]; intros s.
  - exists s. repeat split. by left.
  - rewrite for_each_cons.
    set (source := NtPath.normpath (NtPath.join script_dir ["..\third_party"; n])).
    set (dest := NtPath.normpath (NtPath.join script_dir [n])).
    destruct (decide (resolve h n ∈ fs s)) as [Hn|Hn].
    + erewrite bind_ok; [apply IH|].
      rewrite bind_run. unfold path_exists.
      rewrite bool_decide_eq_true_2 by exact Hn. reflexivity.
    + destruct (decide (resolve h source ∈ fs s)) as [Hsrc|Hsrc].
      * erewrite bind_ok.
        2:{ rewrite bind_run. unfold path_exists.
            rewrite bool_decide_eq_false_2 by exact Hn. cbn [negb].
            unfold copy2. fold source.
            rewrite bool_decide_eq_true_2 by exact Hsrc. reflexivity. }
        destruct (IH (add_event (ECopy2 source dest)
                        (set_fs ({[resolve h dest]} ∪ fs s) s)))
          as (s' & Hg & Ho & He & Hr).
        exists s'. repeat split; assumption.
      * exists s. repeat split. right. exists source.
        apply bind_raise. rewrite bind_run. unfold path_exists.
        rewrite bool_decide_eq_false_2 by exact Hn. cbn [negb].
        unfold copy2. fold source.
        rewrite bool_decide_eq_false_2 by exact Hsrc. reflexivity.
Qed.

(** How the preflight of lines 105-134 can end. *)
Lemma preflight_cases (sys_argv : list string) (s : state) :
  exists s',
    globals s' = globals s
    /\ ((preflight h sys_argv s = (Ok tt, s')
         /\ stdout s' = stdout s
         /\ exists argv0 tracename rest, sys_argv = argv0 :: tracename :: rest)
        \/ preflight h sys_argv s = (Raise (SystemExit 0), s')
        \/ (exists p, preflight h sys_argv s = (Raise (IOError p), s'))
        \/ (preflight h sys_argv s = (Raise IndexError, s') /\ sys_argv = [])).
Proof.
  unfold preflight.
  destruct sys_argv as [|argv0 [|tracename rest]].
  - exists s. split; [reflexivity|]. right. right. right. split; reflexivity.
  - eexists. split; [|right; left; reflexivity]. reflexivity.
  - destruct (copy_loop_cases (NtPath.split argv0).1
                ["pdbcopy.exe"; "dbghelp.dll"; "symsrv.dll"] s)
      as (s1 & Hg & Ho & He & Hr); cbn zeta in Hr.
    unfold mbind, M_bind, bind, mret, M_ret, ret, environ_get, print,
      sys_exit, raise, index, path_exists.
    cbn [length Nat.ltb Nat.leb nth_error]. cbv beta iota.
    destruct (Nat.eqb _ 0).
    { eexists. split; [|right; left; reflexivity]. reflexivity. }
    cbv beta iota. unfold ret. cbv beta iota.
    destruct Hr as [Hr|[p Hr]];
      match goal with
      | |- context [for_each ?l ?b s] =>
          change (for_each l b s) with
            (for_each ["pdbcopy.exe"; "dbghelp.dll"; "symsrv.dll"]
               (fun third_party =>
                  present ← path_exists h third_party;
                  if negb present then
                    copy2 h
                      (NtPath.normpath
                         (NtPath.join (NtPath.split argv0).1 ["..\third_party"; third_party]))
                      (NtPath.normpath (NtPath.join (NtPath.split argv0).1 [third_party]))
                  else mret tt) s)
      end; rewrite Hr; cbv beta iota.
    2:{ exists s1. split; [exact Hg|]. right. right. left. by exists p. }
    destruct (bool_decide (resolve h (NtPath.join _ ["pdbcopy.exe"]) ∈ fs s1)); cbn [negb].
    2:{ eexists. split; [|right; left; reflexivity]. exact Hg. }
    destruct (bool_decide (resolve h (NtPath.join _ ["RetrieveSymbols.exe"]) ∈ fs s1)); cbn [negb].
    2:{ eexists. split; [|right; left; reflexivity]. exact Hg. }
    exists s1. split; [exact Hg|]. left.
    repeat split; [exact Ho|]. by exists argv0, tracename, rest.
Qed.

Lemma preflight_ok_inv (sys_argv : list string) (s s1 : state) :
  preflight h sys_argv s = (Ok tt, s1) ->
  globals s1 = globals s /\ stdout s1 = stdout s
  /\ exists argv0 tracename rest, sys_argv = argv0 :: tracename :: rest.
Proof.
  intros E. destruct (preflight_cases sys_argv s)
    as (s' & Hg & [(E' & Ho & Hargv)|[E'|[[p E']|[E' _]]]]);
    rewrite E in E'; try discriminate.
  injection E' as <-. auto.
Qed.

Lemma run_and_look_for_matches_settled command s :
  Forall (settled h (fs (after_scan_command h command s))) (scan_output h command s) ->
  run_and_look_for_matches h command s = (Ok false, after_scan_command h command s).
Proof.
  unfold run_and_look_for_matches, after_scan_command, scan_output.
  rewrite bind_run. unfold popen.
  destruct (run_tool h command (environ s) (fs s)) as [out fs']. cbn [fst snd].
  intros Hall. apply for_fold_idle.
  eapply Forall_impl; [exact Hall|]. intros line Hl. by apply scan_line_settled.
Qed.

Lemma translate_settled argv0 tracename rest s :
  let s0 := before_scan tracename s in
  let s1 := after_scan_command h (scan_command tracename) s0 in
  Forall (settled h (fs s1)) (scan_output h (scan_command tracename) s0) ->
  translate h (argv0 :: tracename :: rest) s
  = (Ok tt, add_line "No uncached PDBS found, nothing to do." s1).
Proof.
  intros s0 s1 Hall. unfold translate.
  rewrite bind_run. cbn [index nth_error]. rewrite ret_run.
  rewrite bind_run. unfold print at 1.
  rewrite bind_run. unfold print at 1. rewrite bind_run.
  fold pretranslating. fold (before_scan tracename s). fold s0.
  rewrite (run_and_look_for_matches_settled _ _ Hall). reflexivity.
Qed.

Lemma translate_cases argv0 tracename rest s :
  globals s !! "symcache_files" = None ->
  let s0 := before_scan tracename s in
  let s1 := after_scan_command h (scan_command tracename) s0 in
  let out := scan_output h (scan_command tracename) s0 in
  (Forall (settled h (fs s1)) out
   /\ translate h (argv0 :: tracename :: rest) s
      = (Ok tt, add_line "No uncached PDBS found, nothing to do." s1))
  \/ (Exists (uncached h (fs s1)) out
      /\ exists guid age path,
           translate h (argv0 :: tracename :: rest) s
           = (Raise (NameError "symcache_files"),
              add_line (found_message guid age path) s1)).
Proof.
  intros Hfree s0 s1 out.
  destruct (run_and_look_for_matches_cases (scan_command tracename) s0 Hfree)
    as [[Hall E]|[Hex (g & a & p & E)]].
  - left. split; [exact Hall|]. by apply translate_settled.
  - right. split; [exact Hex|]. exists g, a, p.
    unfold translate.
    rewrite bind_run. cbn [index nth_error]. rewrite ret_run.
    rewrite bind_run. unfold print at 1.
    rewrite bind_run. unfold print at 1. rewrite bind_run.
    fold pretranslating. fold (before_scan tracename s). fold s0.
    rewrite E. reflexivity.
Qed.

(** Every way a run of [main] can end. *)
Lemma main_cases argv0 args s :
  globals s !! "symcache_files" = None ->
  exists s',
    main h (argv0 :: args) s = (Ok tt, s')
    \/ main h (argv0 :: args) s = (Raise (SystemExit 0), s')
    \/ (exists p, main h (argv0 :: args) s = (Raise (IOError p), s'))
    \/ main h (argv0 :: args) s = (Raise (NameError "symcache_files"), s').
Proof.
  intros Hfree. unfold main.
  destruct (preflight_cases (argv0 :: args) s)
    as (s1 & Hg & [(E & Ho & a0 & tn & rest & Hargv)|[E|[[p E]|[_ ?]]]]);
    [|exists s1; rewrite (bind_raise _ _ _ _ _ E); eauto..|discriminate].
  rewrite (bind_ok _ _ _ _ _ E). rewrite Hargv.
  rewrite <- Hg in Hfree.
  destruct (translate_cases a0 tn rest s1 Hfree)
    as [[_ Et]|[_ (g & a & p & Et)]]; rewrite Et; eauto.
Qed.

(** The verification loop of lines 174-179 reads the file system and
    prints one line per expected file. *)
Lemma verify_loop (symcache_files : list string) (error : bool) (s : state) :
  let generated f := bool_decide (resolve h f ∈ fs s) in
  exists s',
    for_fold symcache_files error
      (fun symcache_file error =>
         generated ← path_exists h symcache_file;
         if generated : bool then
           print (symcache_file +:+ " generated.") ;; mret error
         else
           print ("Error: " +:+ symcache_file +:+ " not generated.") ;;
           mret true) s
    = (Ok (error || negb (forallb generated symcache_files)), s')
    /\ fs s' = fs s /\ events s' = events s
    /\ stdout s' = stdout s ++ map (verdict generated) symcache_files.
Proof.
  cbn zeta. revert error s.
  induction symcache_files as [|f l IH]; intros error s.
  - exists s. cbn [forallb negb map]. rewrite orb_false_r, app_nil_r. done.
  - rewrite for_fold_cons, bind_run, bind_run. unfold path_exists at 1.
    cbn [forallb map].
    destruct (bool_decide (resolve h f ∈ fs s)) eqn:Hf; cbn [andb negb].
    + destruct (IH error (add_line (f +:+ " generated.") s))
        as (s' & E & Hfs & Hev & Hout).
      exists s'. split; [exact E|]. repeat split; try assumption.
      rewrite Hout. cbn [stdout add_line fs]. unfold verdict at 2.
      by rewrite Hf, <- app_assoc.
    + destruct (IH true (add_line ("Error: " +:+ f +:+ " not generated.") s))
        as (s' & E & Hfs & Hev & Hout).
      exists s'. split; [|repeat split; try assumption].
      * rewrite orb_true_r. exact E.
      * rewrite Hout. cbn [stdout add_line fs]. unfold verdict at 2.
        by rewrite Hf, <- app_assoc.
Qed.

(** The deletion loop of lines 184-185. *)
Lemma rmtree_loop (dirs : list string) (s : state) :
  exists s',
    for_each dirs (fun directory => rmtree h directory) s = (Ok tt, s')
    /\ stdout s' = stdout s
    /\ events s' = events s ++ map ERmtree dirs
    /\ (forall q, q ∈ fs s' <->
                  q ∈ fs s /\ forall d, d ∈ dirs -> beneath (resolve h d) q = false).
Proof.
  revert s. induction dirs as [|d dirs IH]; intros s.
  - exists s. split; [reflexivity|]. split; [reflexivity|].
    split; [by rewrite app_nil_r|]. intros q. split.
    + intros H. split; [exact H|]. intros d Hd. by apply elem_of_nil in Hd.
    + by intros [H _].
  - rewrite for_each_cons.
    destruct (IH (add_event (ERmtree d)
                    (set_fs (filter (fun q => beneath (resolve h d) q = false) (fs s)) s)))
      as (s' & E & Hout & Hev & Hfs).
    exists s'. split; [by erewrite bind_ok|]. split; [exact Hout|]. split.
    + rewrite Hev. cbn [events add_event set_fs map]. by rewrite <- app_assoc.
    + intros q. rewrite Hfs. cbn [fs add_event set_fs]. rewrite elem_of_filter.
      split.
      * intros [[Hd Hq] Hrest]. split; [exact Hq|].
        intros d' [->|Hd']%elem_of_cons; auto.
      * intros [Hq Hall]. split; [split; [|exact Hq]|].
        -- apply Hall. by left.
        -- intros d' Hd'. apply Hall. by right.
Qed.

Lemma elem_of_map_2 {A B} (f : A -> B) (l : list A) (x : A) :
  x ∈ l -> f x ∈ map f l.
Proof. intros Hx. apply list_elem_of_In, in_map. by apply list_elem_of_In. Qed.

(** A loop of renames, each from [src p] to [dst p], goes through when the
    files involved are pairwise distinct, every source exists and no
    destination does. *)
Lemma rename_loop (src dst : string -> string) (body : string -> M unit)
      (l : list string) :
  (forall p s,
     resolve h (src p) ∈ fs s -> resolve h (dst p) ∉ fs s ->
     exists s',
       body p s = (Ok tt, s')
       /\ fs s' = {[resolve h (dst p)]} ∪ (fs s ∖ {[resolve h (src p)]})
       /\ events s' = events s ++ [ERename (src p) (dst p)]
       /\ environ s' = environ s) ->
  forall s,
    NoDup (map (fun p => resolve h (src p)) l ++ map (fun p => resolve h (dst p)) l) ->
    (forall p, p ∈ l -> resolve h (src p) ∈ fs s) ->
    (forall p, p ∈ l -> resolve h (dst p) ∉ fs s) ->
    exists s',
      for_each l body s = (Ok tt, s')
      /\ events s' = events s ++ map (fun p => ERename (src p) (dst p)) l
      /\ environ s' = environ s
      /\ (forall q, q ∈ fs s' <->
                    (q ∈ fs s /\ q ∉ map (fun p => resolve h (src p)) l)
                    \/ q ∈ map (fun p => resolve h (dst p)) l).
Proof.
  intros Hbody. induction l as [|p l IH]; intros s Hnd Hsrc Hdst.
  - exists s. split; [reflexivity|]. split; [by rewrite app_nil_r|].
    split; [reflexivity|]. intros q. cbn [map]. set_solver.
  - cbn [map app] in Hnd.
    apply NoDup_cons in Hnd as [Hp Hnd].
    apply NoDup_app in Hnd as (Hnd_src & Hdisj & Hnd_dst).
    apply NoDup_cons in Hnd_dst as [Hpd Hnd_dst].
    assert (Hab : resolve h (src p) <> resolve h (dst p)) by set_solver.
    assert (HaA : resolve h (src p) ∉ map (fun p => resolve h (src p)) l) by set_solver.
    assert (HaB : resolve h (src p) ∉ map (fun p => resolve h (dst p)) l) by set_solver.
    assert (HbA : resolve h (dst p) ∉ map (fun p => resolve h (src p)) l).
    { intros Hin. apply (Hdisj _ Hin). by left. }
    destruct (Hbody p s) as (s1 & E1 & Hfs1 & Hev1 & Henv1);
      [apply Hsrc; by left|apply Hdst; by left|].
    destruct (IH s1) as (s' & E & Hev & Henv & Hfs).
    + apply NoDup_app. split; [exact Hnd_src|]. split; [|exact Hnd_dst].
      intros q Hq Hq'. apply (Hdisj q Hq). by right.
    + intros p' Hp'. rewrite Hfs1.
      assert (resolve h (src p') ∈ map (fun p => resolve h (src p)) l)
        by (by apply (elem_of_map_2 (fun p => resolve h (src p)))).
      assert (resolve h (src p') ∈ fs s) by (apply Hsrc; by right).
      set_solver.
    + intros p' Hp'. rewrite Hfs1.
      assert (resolve h (dst p') ∈ map (fun p => resolve h (dst p)) l)
        by (by apply (elem_of_map_2 (fun p => resolve h (dst p)))).
      assert (resolve h (dst p') ∉ fs s) by (apply Hdst; by right).
      set_solver.
    + exists s'. rewrite for_each_cons, (bind_ok _ _ _ _ _ E1).
      split; [exact E|]. split; [|split].
      * rewrite Hev, Hev1. cbn [map]. by rewrite <- app_assoc.
      * by rewrite Henv, Henv1.
      * intros q. rewrite Hfs, Hfs1. cbn [map].
        destruct (decide (q = resolve h (dst p))) as [->|Hqb]; [set_solver|].
        destruct (decide (q = resolve h (src p))) as [->|Hqa]; set_solver.
Qed.

Lemma rename_run (src dst : string) (s : state) :
  resolve h src ∈ fs s -> resolve h dst ∉ fs s ->
  rename h src dst s
  = (Ok tt, add_event (ERename src dst)
              (set_fs ({[resolve h dst]} ∪ (fs s ∖ {[resolve h src]})) s)).
Proof.
  intros Hsrc Hdst. unfold rename.
  rewrite bool_decide_eq_true_2 by exact Hsrc.
  rewrite bool_decide_eq_false_2 by exact Hdst. reflexivity.
Qed.



End RunFacts.

(** * The claims *)

(** Settle a closed decidable proposition by evaluation. *)
Ltac by_compute := apply (bool_decide_unpack _); vm_compute; exact I.

Section Claims.
Import Py Script Scan Run Examples.

(** What the loop body does with a reference is decided by the existence of
    the file [symcache_name guid age] alone. *)
Lemma scan_line_reference h line found s guid age path :
  reference line = Some (guid, age, path) ->
  (resolve h (symcache_name guid age) ∈ fs s ->
   scan_line h line found s = (Ok found, s))
  /\ (resolve h (symcache_name guid age) ∉ fs s ->
      globals s !! "symcache_files" = None ->
      scan_line h line found s
      = (Raise (NameError "symcache_files"),
         add_line (found_message guid age path) s)).
Proof.
  intros Href. split.
  - intros Hin. apply scan_line_settled. unfold settled. by rewrite Href.
  - intros Hout Hfree. by apply scan_line_uncached.
Qed.

Lemma reference_of_groups line guid age path :
  mentions_chrome line = true ->
  Re.match_groups Re.pdb_re line = Some [guid; age; path] ->
  reference line = Some (PyStr.replace guid "-" "", age, path).
Proof. intros Hm Hg. unfold reference. by rewrite Hm, Hg. Qed.

(** C2: a line that mentions chrome.dll or chrome_child.dll, matches the
    RSDS pattern and has no symcache file on disk makes the loop body raise
    NameError for symcache_files, right after the message about the uncached
    reference has been printed: none of symcache_files, local_symbol_files,
    tempdirs, retrieve_path and pdbcopy_path is bound in the module
    namespace or by run_and_look_for_matches itself. A run whose preflight
    passes and whose trace has such a line therefore ends with that uncaught
    exception, having started no tool but the enumerator. *)
Theorem uncached_reference_raises_name_error (h : host) :
  (forall name, name ∈ free_names ->
     module_namespace !! name = None /\ name ∉ scan_locals)
  /\ (forall line guid age path found s,
        mentions_chrome line = true ->
        Re.match_groups Re.pdb_re line = Some [guid; age; path] ->
        resolve h (symcache_name (PyStr.replace guid "-" "") age) ∉ fs s ->
        globals s = module_namespace ->
        scan_line h line found s
        = (Raise (NameError "symcache_files"),
           add_line (found_message (PyStr.replace guid "-" "") age path) s))
  /\ (forall argv0 tracename rest files env s1,
        preflight h (argv0 :: tracename :: rest) (initial files env) = (Ok tt, s1) ->
        let s2 := after_scan_command h (scan_command tracename)
                    (before_scan tracename s1) in
        Exists (uncached h (fs s2))
          (scan_output h (scan_command tracename) (before_scan tracename s1)) ->
        exists s',
          run h argv0 (tracename :: rest) files env
          = (Raise (NameError "symcache_files"), s')
          /\ exit_status (run h argv0 (tracename :: rest) files env).1 = 1%Z
          /\ events s' = events s1 ++ [EPopen (scan_command tracename)]).
Proof.
  split; [|split].
  - intros name Hname. unfold free_names in Hname.
    repeat (apply elem_of_cons in Hname as [->|Hname]);
      [split; [vm_compute; reflexivity|by_compute].. |].
    by apply elem_of_nil in Hname.
  - intros line guid age path found s Hm Hg Hout Hglob.
    apply scan_line_uncached; [by apply reference_of_groups|exact Hout|].
    rewrite Hglob. vm_compute. reflexivity.
  - intros argv0 tracename rest files env s1 Hpre s2 Hex.
    destruct (preflight_ok_inv h _ _ _ Hpre) as (Hg & _ & _).
    assert (Hfree : globals s1 !! "symcache_files" = None).
    { rewrite Hg. vm_compute. reflexivity. }
    destruct (translate_cases h argv0 tracename rest s1 Hfree)
      as [[Hall _]|[_ (g & a & p & Et)]].
    { exfalso. eapply Forall_settled_not_Exists_uncached; eauto. }
    unfold run, main. rewrite (bind_ok _ _ _ _ _ Hpre), Et.
    eexists. split; [reflexivity|]. split; reflexivity.
Qed.

Lemma uncached_reference_raises_name_error_witness :
  (run (machine "C:\etw\bin" [kernel_line; chrome_line]) script ["trace.etl"]
       installed symbol_env).1
  = Raise (NameError "symcache_files")
  /\ scan_line (machine "C:\etw\bin" []) (chrome_line +:+ newline) false
       (initial installed symbol_env)
     = (Raise (NameError "symcache_files"),
        add_line "Found uncached reference to chrome.dll.pdb: AAAAAAAABBBBCCCCDDDDEEEEEEEEEEEE - 3"
          (initial installed symbol_env)).
Proof.
  split.
  - destruct (uncached_reference_raises_name_error
                (machine "C:\etw\bin" [kernel_line; chrome_line]))
      as (_ & _ & H).
    destruct (H script "trace.etl" [] installed symbol_env
                (initial installed symbol_env)) as (s' & E & _).
    + vm_compute. reflexivity.
    + by_compute.
    + rewrite E. reflexivity.
  - destruct (uncached_reference_raises_name_error (machine "C:\etw\bin" []))
      as (_ & H & _).
    apply (H (chrome_line +:+ newline) "AAAAAAAA-BBBB-CCCC-DDDD-EEEEEEEEEEEE" "3"
             "C:\x\chrome.dll.pdb").
    + vm_compute. reflexivity.
    + vm_compute. reflexivity.
    + by_compute.
    + reflexivity.
Defined.

(** C3: for the scan line of the specification (double quotes included,
    with or without the line terminator) the signature, age and path are
    extracted as written and the cache file whose existence the loop body
    tests is c:\symcache\chrome.dll-AAAAAAAABBBBCCCCDDDDEEEEEEEEEEEE3v2.symcache:
    the dashes are removed, the age is appended, prefix and suffix are
    fixed. Nothing else is normalised: a lower-case signature gives the
    lower-case file name. *)
Theorem spec_line_cache_filename :
  Re.match_groups Re.pdb_re chrome_line
  = Some ["AAAAAAAA-BBBB-CCCC-DDDD-EEEEEEEEEEEE"; "3"; "C:\x\chrome.dll.pdb"]
  /\ reference chrome_line
     = Some ("AAAAAAAABBBBCCCCDDDDEEEEEEEEEEEE", "3", "C:\x\chrome.dll.pdb")
  /\ reference (chrome_line +:+ newline) = reference chrome_line
  /\ symcache_name "AAAAAAAABBBBCCCCDDDDEEEEEEEEEEEE" "3"
     = "c:\symcache\chrome.dll-AAAAAAAABBBBCCCCDDDDEEEEEEEEEEEE3v2.symcache"
  /\ (forall guid age,
        symcache_name guid age
        = "c:\symcache\chrome.dll-" +:+ guid +:+ age +:+ "v2.symcache")
  /\ (forall h found s,
        (resolve h chrome_symcache ∈ fs s ->
         scan_line h chrome_line found s = (Ok found, s))
        /\ (resolve h chrome_symcache ∉ fs s ->
            globals s !! "symcache_files" = None ->
            scan_line h chrome_line found s
            = (Raise (NameError "symcache_files"),
               add_line "Found uncached reference to chrome.dll.pdb: AAAAAAAABBBBCCCCDDDDEEEEEEEEEEEE - 3" s)))
  /\ option_map (fun r => symcache_name r.1.1 r.1.2) (reference chrome_line_lower)
     = Some "c:\symcache\chrome.dll-aaaaaaaabbbbccccddddeeeeeeeeeeee3v2.symcache".
Proof.
  assert (Href : reference chrome_line
                 = Some ("AAAAAAAABBBBCCCCDDDDEEEEEEEEEEEE", "3", "C:\x\chrome.dll.pdb"))
    by (vm_compute; reflexivity).
  repeat split; try (vm_compute; reflexivity).
  - intros Hin. by apply (scan_line_reference h _ found s _ _ _ Href).
  - intros Hout Hfree.
    by apply (scan_line_reference h _ found s _ _ _ Href).
Qed.

Lemma spec_line_cache_filename_witness :
  scan_line (machine "C:\etw\bin" []) chrome_line false
    (initial ({[chrome_symcache]} ∪ installed) symbol_env)
  = (Ok false, initial ({[chrome_symcache]} ∪ installed) symbol_env).
Proof.
  destruct spec_line_cache_filename as (_ & _ & _ & _ & _ & H & _).
  apply (H (machine "C:\etw\bin" [])). by_compute.
Defined.

(** C10: whichever watched binary a matching line names, the file whose
    existence decides between skipping and processing the reference is
    c:\symcache\chrome.dll-<signature without dashes><age>v2.symcache. The
    PDB path of the line does not enter that name; its base name appears in
    the message about the uncached reference. *)
Theorem cache_filename_ignores_binary_name (h : host)
        (line guid age path : string) (found : bool) (s : state) :
  mentions_chrome line = true ->
  Re.match_groups Re.pdb_re line = Some [guid; age; path] ->
  let cache :=
    "c:\symcache\chrome.dll-" +:+ PyStr.replace guid "-" "" +:+ age
      +:+ "v2.symcache" in
  (resolve h cache ∈ fs s -> scan_line h line found s = (Ok found, s))
  /\ (resolve h cache ∉ fs s ->
      globals s !! "symcache_files" = None ->
      scan_line h line found s
      = (Raise (NameError "symcache_files"),
         add_line ("Found uncached reference to " +:+ (NtPath.split path).2
                     +:+ ": " +:+ PyStr.replace guid "-" "" +:+ " - " +:+ age) s)).
Proof.
  intros Hm Hg cache.
  exact (scan_line_reference h line found s _ _ _ (reference_of_groups _ _ _ _ Hm Hg)).
Qed.

Lemma cache_filename_ignores_binary_name_witness :
  (scan_line (machine "C:\etw\bin" []) (chrome_child_line +:+ newline) false
     (initial ({[chrome_child_symcache]} ∪ installed) symbol_env)
   = (Ok false, initial ({[chrome_child_symcache]} ∪ installed) symbol_env))
  /\ scan_line (machine "C:\etw\bin" []) (chrome_child_line +:+ newline) false
       (initial ({["c:\symcache\chrome_child.dll-be90dbc6fe3148429c727e2ea88f0adf1v2.symcache"]}
                   ∪ installed) symbol_env)
     = (Raise (NameError "symcache_files"),
        add_line "Found uncached reference to chrome_child.dll.pdb: be90dbc6fe3148429c727e2ea88f0adf - 1"
          (initial ({["c:\symcache\chrome_child.dll-be90dbc6fe3148429c727e2ea88f0adf1v2.symcache"]}
                      ∪ installed) symbol_env)).
Proof.
  split.
  - apply (cache_filename_ignores_binary_name (machine "C:\etw\bin" [])
             (chrome_child_line +:+ newline) "be90dbc6-fe31-4842-9c72-7e2ea88f0adf" "1"
             "C:\b\build\src\out\Release\chrome_child.dll.pdb").
    + vm_compute. reflexivity.
    + vm_compute. reflexivity.
    + by_compute.
  - apply (cache_filename_ignores_binary_name (machine "C:\etw\bin" [])
             (chrome_child_line +:+ newline) "be90dbc6-fe31-4842-9c72-7e2ea88f0adf" "1"
             "C:\b\build\src\out\Release\chrome_child.dll.pdb").
    + vm_compute. reflexivity.
    + vm_compute. reflexivity.
    + by_compute.
    + vm_compute. reflexivity.
Defined.

(** How a run can end. Either [main] returns or calls [sys.exit], and then
    the exit status is 0, because every [sys.exit] of the script passes 0;
    or an exception that is not [SystemExit] leaves [main] uncaught, and
    then the interpreter reports status 1. *)
Theorem exit_status_zero_unless_uncaught_exception
        (h : host) (argv0 : string) (args : list string)
        (files : gset string) (env : gmap string string) :
  let r := (run h argv0 args files env).1 in
  (exit_status r = 0%Z /\ (r = Ok tt \/ r = Raise (SystemExit 0)))
  \/ (exit_status r = 1%Z
      /\ exists e, r = Raise e /\ forall code, e <> SystemExit code).
Proof.
  cbn zeta. unfold run.
  destruct (main_cases h argv0 args (initial files env))
    as (s' & [E|[E|[[p E]|E]]]); [vm_compute; reflexivity|..]; rewrite E; cbn [fst].
  - left. split; [reflexivity|by left].
  - left. split; [reflexivity|by right].
  - right. split; [reflexivity|]. eexists. split; [reflexivity|discriminate].
  - right. split; [reflexivity|]. eexists. split; [reflexivity|discriminate].
Qed.

(** C1 is not what the code does: with a trace argument and the symbol
    server in the symbol path, but pdbcopy.exe neither in the current
    directory nor in third_party, the copy of line 126 raises before the
    check of lines 128-130 can print its message and exit with 0. Nothing
    is printed, and the failure reaches the operating system as a non-zero
    exit status. *)
Lemma exit_status_nonzero_on_failed_copy :
  let r := run (machine "C:\etw\bin" []) script ["trace.etl"]
               {["C:\etw\bin\RetrieveSymbols.exe"]} symbol_env in
  r.1 = Raise (IOError "C:\etw\third_party\pdbcopy.exe")
  /\ stdout r.2 = []
  /\ exit_status r.1 <> 0%Z.
Proof. vm_compute. repeat split; discriminate. Qed.

(** C4: a reference whose symcache file exists is skipped without any
    effect; and when every reference of the trace is settled in this way, a
    run whose preflight has passed starts the enumerator and nothing else:
    no retrieval, no temporary directory, no stripping, no rebuild. It
    prints its three lines and returns. *)
Theorem cached_references_skipped (h : host) :
  (forall line guid age path found s,
     reference line = Some (guid, age, path) ->
     resolve h (symcache_name guid age) ∈ fs s ->
     scan_line h line found s = (Ok found, s))
  /\ (forall argv0 tracename rest s s1,
        preflight h (argv0 :: tracename :: rest) s = (Ok tt, s1) ->
        let s2 := after_scan_command h (scan_command tracename)
                    (before_scan tracename s1) in
        Forall (settled h (fs s2))
          (scan_output h (scan_command tracename) (before_scan tracename s1)) ->
        main h (argv0 :: tracename :: rest) s
        = (Ok tt, add_line "No uncached PDBS found, nothing to do." s2)
        /\ events (main h (argv0 :: tracename :: rest) s).2
           = events s1 ++ [EPopen (scan_command tracename)]).
Proof.
  split.
  - intros line guid age path found s Href Hin.
    by apply (scan_line_reference h line found s _ _ _ Href).
  - intros argv0 tracename rest s s1 Hpre s2 Hall.
    assert (E : main h (argv0 :: tracename :: rest) s
                = (Ok tt, add_line "No uncached PDBS found, nothing to do." s2)).
    { unfold main. rewrite (bind_ok _ _ _ _ _ Hpre). by apply translate_settled. }
    split; [exact E|]. rewrite E. reflexivity.
Qed.

Lemma cached_references_skipped_witness :
  let h := machine "C:\etw\bin" [kernel_line; chrome_line; chrome_child_line] in
  let files := {[chrome_symcache; chrome_child_symcache]} ∪ installed in
  events (main h [script; "trace.etl"] (initial files symbol_env)).2
  = [EPopen (scan_command "trace.etl")]
  /\ scan_line h (chrome_line +:+ newline) false (initial files symbol_env)
     = (Ok false, initial files symbol_env).
Proof.
  intros h files. destruct (cached_references_skipped h) as [Hline Hrun]. split.
  - destruct (Hrun script "trace.etl" [] (initial files symbol_env)
                (initial files symbol_env)) as [_ E].
    + vm_compute. reflexivity.
    + by_compute.
    + exact E.
  - apply (Hline _ "AAAAAAAABBBBCCCCDDDDEEEEEEEEEEEE" "3" "C:\x\chrome.dll.pdb").
    + vm_compute. reflexivity.
    + by_compute.
Defined.

(** C5, as amended: when no line of the enumerator's output mentions
    chrome.dll or chrome_child.dll, a run whose preflight has passed starts
    the enumerator only, prints the two scan-start lines followed by
    No uncached PDBS found, nothing to do. and returns, so that the exit
    status is 0. *)
Theorem no_reference_run_output (h : host) (argv0 tracename : string)
        (rest : list string) (s s1 : state) :
  preflight h (argv0 :: tracename :: rest) s = (Ok tt, s1) ->
  Forall (fun line => mentions_chrome line = false)
    (scan_output h (scan_command tracename) (before_scan tracename s1)) ->
  exists s2,
    main h (argv0 :: tracename :: rest) s = (Ok tt, s2)
    /\ exit_status (main h (argv0 :: tracename :: rest) s).1 = 0%Z
    /\ run_and_look_for_matches h (scan_command tracename) (before_scan tracename s1)
       = (Ok false, after_scan_command h (scan_command tracename)
                      (before_scan tracename s1))
    /\ stdout s2
       = stdout s ++ [pretranslating; "> " +:+ scan_command tracename;
                      "No uncached PDBS found, nothing to do."]
    /\ events s2 = events s1 ++ [EPopen (scan_command tracename)].
Proof.
  intros Hpre Hnone.
  assert (Hall : Forall (settled h (fs (after_scan_command h (scan_command tracename)
                                          (before_scan tracename s1))))
                   (scan_output h (scan_command tracename) (before_scan tracename s1))).
  { eapply Forall_impl; [exact Hnone|]. intros line Hl.
    unfold settled, reference. by rewrite Hl. }
  assert (E : main h (argv0 :: tracename :: rest) s
              = (Ok tt, add_line "No uncached PDBS found, nothing to do."
                          (after_scan_command h (scan_command tracename)
                             (before_scan tracename s1)))).
  { unfold main. rewrite (bind_ok _ _ _ _ _ Hpre). by apply translate_settled. }
  destruct (preflight_ok_inv h _ _ _ Hpre) as (_ & Ho & _).
  eexists. split; [exact E|]. rewrite E. split; [reflexivity|].
  split; [by apply run_and_look_for_matches_settled|].
  split; [|reflexivity].
  cbn [stdout add_line after_scan_command before_scan add_event set_fs].
  rewrite Ho, <- !app_assoc. reflexivity.
Qed.

Lemma no_reference_run_output_witness :
  stdout (main (machine "C:\etw\bin" [kernel_line]) [script; "trace.etl"]
            (initial installed symbol_env)).2
  = [pretranslating; "> " +:+ scan_command "trace.etl";
     "No uncached PDBS found, nothing to do."].
Proof.
  destruct (no_reference_run_output (machine "C:\etw\bin" [kernel_line])
              script "trace.etl" [] (initial installed symbol_env)
              (initial installed symbol_env)) as (s2 & E & _ & _ & Ho & _).
  - vm_compute. reflexivity.
  - by_compute.
  - rewrite E. exact Ho.
Defined.

(** C5 fails as stated: the run prints a third line after the two
    scan-start lines. *)
Lemma no_reference_run_prints_closing_line :
  let h := machine "C:\etw\bin" [kernel_line] in
  let r := run h script ["trace.etl"] installed symbol_env in
  Forall (fun line => mentions_chrome line = false)
    (scan_output h (scan_command "trace.etl")
       (before_scan "trace.etl" (initial installed symbol_env)))
  /\ r.1 = Ok tt
  /\ events r.2 = [EPopen (scan_command "trace.etl")]
  /\ stdout r.2 <> [pretranslating; "> " +:+ scan_command "trace.etl"].
Proof.
  cbn zeta. split; [by_compute|]. vm_compute. repeat split. discriminate.
Qed.

(** C7: the block of lines 173-185 always completes. It prints one verdict
    per expected symcache file; when all of them exist it deletes every
    temporary directory with everything beneath it, and when one is missing
    it prints that the PDBs are retained and changes nothing on disk. The
    block is the last statement of [main], which then returns: exit
    status 0. *)
Theorem verify_and_cleanup_deletes_iff_generated
        (h : host) (tempdirs symcache_files : list string) (s : state) :
  let generated f := bool_decide (resolve h f ∈ fs s) in
  exists s',
    verify_and_cleanup h tempdirs symcache_files s = (Ok tt, s')
    /\ exit_status (verify_and_cleanup h tempdirs symcache_files s).1 = 0%Z
    /\ if forallb generated symcache_files then
         stdout s' = stdout s ++ map (verdict generated) symcache_files
         /\ events s' = events s ++ map ERmtree tempdirs
         /\ (forall q, q ∈ fs s' <->
                       q ∈ fs s
                       /\ forall d, d ∈ tempdirs -> beneath (resolve h d) q = false)
         /\ (forall d, d ∈ tempdirs -> resolve h d ∉ fs s')
       else
         stdout s' = stdout s ++ map (verdict generated) symcache_files
                       ++ ["Retaining PDBs to allow rerunning xperf command-line."]
         /\ events s' = events s
         /\ fs s' = fs s.
Proof.
  cbn zeta. unfold verify_and_cleanup.
  destruct (verify_loop h symcache_files false s) as (s1 & E & Hfs & Hev & Hout).
  cbn zeta in E. rewrite (bind_ok _ _ _ _ _ E). cbn [orb].
  destruct (forallb _ symcache_files); cbn [negb].
  - destruct (rmtree_loop h tempdirs s1) as (s' & Er & Hout' & Hev' & Hfs').
    exists s'. rewrite Er. split; [reflexivity|]. split; [reflexivity|].
    split; [by rewrite Hout'|]. split; [by rewrite Hev', Hev|].
    split; [intros q; by rewrite Hfs', Hfs|].
    intros d Hd Hin. apply Hfs' in Hin as [_ Hall].
    specialize (Hall d Hd). unfold beneath in Hall.
    by rewrite String.eqb_refl in Hall.
  - eexists. split; [reflexivity|]. split; [reflexivity|].
    cbn [stdout events fs add_line]. rewrite Hout, Hev, Hfs.
    by rewrite <- app_assoc.
Qed.

Lemma verify_and_cleanup_deletes_iff_generated_witness :
  let h := machine "C:\etw\bin" [] in
  let dirs := ["C:\Temp\tmp1"; "C:\Temp\tmp2"] in
  let stripped : gset string :=
    list_to_set ["C:\Temp\tmp1"; "C:\Temp\tmp1\chrome.dll.pdb";
                 "C:\Temp\tmp2"; "C:\Temp\tmp2\chrome_child.dll.pdb"] in
  let good := initial ({[chrome_symcache; chrome_child_symcache]} ∪ stripped ∪ installed)
                symbol_env in
  let bad := initial ({[chrome_symcache]} ∪ stripped ∪ installed) symbol_env in
  (forall d, d ∈ dirs ->
     resolve h d ∉ fs (verify_and_cleanup h dirs [chrome_symcache; chrome_child_symcache] good).2)
  /\ fs (verify_and_cleanup h dirs [chrome_symcache; chrome_child_symcache] bad).2 = fs bad.
Proof.
  intros h dirs stripped good bad. split.
  - destruct (verify_and_cleanup_deletes_iff_generated h dirs
                [chrome_symcache; chrome_child_symcache] good) as (s' & E & _ & H).
    rewrite E. cbn [snd].
    replace (forallb _ _) with true in H by (vm_compute; reflexivity).
    apply H.
  - destruct (verify_and_cleanup_deletes_iff_generated h dirs
                [chrome_symcache; chrome_child_symcache] bad) as (s' & E & _ & H).
    rewrite E. cbn [snd].
    replace (forallb _ _) with false in H by (vm_compute; reflexivity).
    apply H.
Defined.



Lemma exit_status_zero_unless_uncaught_exception_witness :
  exit_status (run (machine "C:\etw\bin" []) script [] installed symbol_env).1 = 0%Z.
Proof.
  destruct (exit_status_zero_unless_uncaught_exception
              (machine "C:\etw\bin" []) script [] installed symbol_env)
    as [[H _]|[H _]]; [exact H|].
  vm_compute in H. discriminate H.
Defined.

(** C6 is not what the code does. The trace has two uncached references;
    the retrieval tool would print no success line and neither PDB exists
    locally. The run stops at line 78 while handling the first reference:
    no retrieval is attempted, the failure message is not printed and the
    second reference is never looked at. *)
Theorem retrieval_failure_not_reported :
  let h := machine "C:\etw\bin" [chrome_line; chrome_child_line] in
  let r := run h script ["trace.etl"] installed symbol_env in
  Forall (uncached h installed) [chrome_line +:+ newline; chrome_child_line +:+ newline]
  /\ (forall cmd env files, is_scan cmd = false -> (run_tool h cmd env files).1 = [])
  /\ (resolve h "C:\x\chrome.dll.pdb" ∉ installed)
  /\ r.1 = Raise (NameError "symcache_files")
  /\ stdout r.2
     = [pretranslating; "> " +:+ scan_command "trace.etl";
        "Found uncached reference to chrome.dll.pdb: AAAAAAAABBBBCCCCDDDDEEEEEEEEEEEE - 3"]
  /\ ("Failed to retrieve symbols. Check for RetrieveSymbols.exe and support files."
       ∉ stdout r.2)
  /\ events r.2 = [EPopen (scan_command "trace.etl")].
Proof.
  cbn zeta. split; [by_compute|]. split.
  { intros cmd env files Hcmd. cbn [run_tool machine]. by rewrite Hcmd. }
  split; [by_compute|]. split; [vm_compute; reflexivity|].
  split; [vm_compute; reflexivity|]. split; [by_compute|].
  vm_compute. reflexivity.
Qed.

(** C9 is not what the code does. The script is started from C:\traces,
    which holds a pdbcopy.exe; the script directory C:\etw\bin has none and
    third_party has one. Line 122 tests the bare name, which the system
    resolves against the current directory, so pdbcopy.exe is not copied
    while the other two support files are, and the run ends with the
    message that pdbcopy.exe was not found. *)
Theorem support_file_check_uses_working_directory :
  let h := machine "C:\traces" [] in
  let r := run h script ["trace.etl"] stray_pdbcopy symbol_env in
  ("C:\etw\bin\pdbcopy.exe" ∉ stray_pdbcopy)
  /\ ("C:\etw\third_party\pdbcopy.exe" ∈ stray_pdbcopy)
  /\ r.1 = Raise (SystemExit 0)
  /\ stdout r.2 = ["pdbcopy.exe not found. No symbol stripping is possible."]
  /\ events r.2
     = [ECopy2 "C:\etw\third_party\dbghelp.dll" "C:\etw\bin\dbghelp.dll";
        ECopy2 "C:\etw\third_party\symsrv.dll" "C:\etw\bin\symsrv.dll"].
Proof.
  cbn zeta. split; [by_compute|]. split; [by_compute|].
  vm_compute. repeat split.
Qed.

End Claims.

(** * Further properties *)

(** ** Text, patterns and paths *)

Section TextFacts.
Import Text.

Lemma str_app_cons (x : ascii) (a b : string) :
  String x a +:+ b = String x (a +:+ b).
Proof. reflexivity. Qed.

Lemma str_app_nil_l (b : string) : "" +:+ b = b.
Proof. reflexivity. Qed.

Lemma str_app_assoc (a b c : string) : (a +:+ b) +:+ c = a +:+ (b +:+ c).
Proof.
  induction a as [|x a IH]; [reflexivity|]. rewrite !str_app_cons. by rewrite IH.
Qed.

Lemma str_app_nil_r (a : string) : a +:+ "" = a.
Proof.
  induction a as [|x a IH]; [reflexivity|]. rewrite str_app_cons. by rewrite IH.
Qed.

Lemma str_length_app (a b : string) :
  String.length (a +:+ b) = String.length a + String.length b.
Proof.
  induction a as [|x a IH]; [reflexivity|]. rewrite str_app_cons. cbn [String.length].
  by rewrite IH.
Qed.

Lemma substring_prefix (b c : string) :
  String.substring 0 (String.length b) (b +:+ c) = b.
Proof.
  induction b as [|x b IH].
  - rewrite str_app_nil_l. by destruct c.
  - rewrite str_app_cons. cbn [String.length String.substring]. by rewrite IH.
Qed.

Lemma substring_mid (a b c : string) :
  String.substring (String.length a) (String.length b) (a +:+ b +:+ c) = b.
Proof.
  induction a as [|x a IH].
  - rewrite str_app_nil_l. apply substring_prefix.
  - rewrite str_app_cons. cbn [String.length String.substring]. exact IH.
Qed.

Lemma substring_at (pre mid post : string) (n k : nat) :
  n = String.length pre -> k = String.length mid ->
  String.substring n k (pre +:+ mid +:+ post) = mid.
Proof. intros -> ->. apply substring_mid. Qed.

Lemma has_char_app c (a b : string) :
  has_char c (a +:+ b) = has_char c a || has_char c b.
Proof.
  induction a as [|x a IH]; [reflexivity|]. rewrite str_app_cons. cbn [has_char].
  by rewrite IH, orb_assoc.
Qed.

End TextFacts.

Section ReFacts.
Import Text Re.

Lemma run_dotstar_step ts x s pos opened caps :
  run (DotStar :: ts) (String x s) pos opened caps
  = if is_lf x then run ts (String x s) pos opened caps
    else match run (DotStar :: ts) s (S pos) opened caps with
         | Some r => Some r
         | None => run ts (String x s) pos opened caps
         end.
Proof. reflexivity. Qed.

Lemma run_dotstar_nil ts pos opened caps :
  run (DotStar :: ts) "" pos opened caps = run ts "" pos opened caps.
Proof. reflexivity. Qed.

Lemma run_lit_inv c ts s pos opened caps r :
  run (Lit c :: ts) s pos opened caps = Some r ->
  exists s', s = String c s' /\ run ts s' (S pos) opened caps = Some r.
Proof.
  destruct s as [|x s]; [discriminate|]. cbn [run].
  destruct (Ascii.eqb_spec x c) as [->|]; [|discriminate]. eauto.
Qed.

Lemma run_lits_inv l ts s pos opened caps r :
  run (lits l ++ ts) s pos opened caps = Some r ->
  exists s', s = l +:+ s'
             /\ run ts s' (pos + String.length l) opened caps = Some r.
Proof.
  revert s pos. induction l as [|c l IH]; intros s pos E.
  - exists s. by rewrite Nat.add_0_r.
  - cbn [lits app] in E. apply run_lit_inv in E as (s1 & -> & E).
    apply IH in E as (s' & -> & E). exists s'. split; [reflexivity|].
    cbn [String.length]. by rewrite Nat.add_succ_r.
Qed.

(** A greedy run consumes characters other than the line feed. *)
Lemma run_dotstar_inv ts s pos opened caps r :
  run (DotStar :: ts) s pos opened caps = Some r ->
  exists x s', s = x +:+ s' /\ no_lf x
               /\ run ts s' (pos + String.length x) opened caps = Some r.
Proof.
  revert pos. induction s as [|c s IH]; intros pos E.
  - exists "", "". rewrite Nat.add_0_r. by rewrite run_dotstar_nil in E.
  - rewrite run_dotstar_step in E. destruct (is_lf c) eqn:Hc.
    + exists "", (String c s). by rewrite Nat.add_0_r.
    + destruct (run (DotStar :: ts) s (S pos) opened caps) as [r'|] eqn:E'.
      * injection E as ->. apply IH in E' as (x & s' & -> & Hx & E').
        exists (String c x), s'. split; [reflexivity|]. split.
        -- unfold no_lf in *. cbn [has_char]. unfold is_lf in Hc. by rewrite Hc.
        -- cbn [String.length]. by rewrite Nat.add_succ_r.
      * exists "", (String c s). by rewrite Nat.add_0_r.
Qed.

Lemma run_open ts s pos opened caps :
  run (Open :: ts) s pos opened caps = run ts s pos (pos :: opened) caps.
Proof. reflexivity. Qed.

Lemma run_close ts s pos start opened caps :
  run (Close :: ts) s pos (start :: opened) caps
  = run ts s pos opened ((start, pos) :: caps).
Proof. reflexivity. Qed.

Lemma run_nil_inv s pos opened caps r :
  run [] s pos opened caps = Some r -> r = rev caps.
Proof. cbn [run]. congruence. Qed.

(** What a successful run of [pdb_re] has consumed and captured. *)
Lemma pdb_re_run_inv line spans :
  run pdb_re line 0 [] [] = Some spans ->
  exists x1 x2 x3 x4 x5 a p rest,
    let g := x1 +:+ "-" +:+ x2 +:+ "-" +:+ x3 +:+ "-" +:+ x4 +:+ "-" +:+ x5 in
    line = (dquote +:+ "[RSDS] PdbSig: {") +:+ g +:+ "}; Age: " +:+ a
             +:+ "; Pdb: " +:+ p +:+ dquote +:+ rest
    /\ (no_lf x1 /\ no_lf x2 /\ no_lf x3 /\ no_lf x4 /\ no_lf x5)
    /\ no_lf a /\ no_lf p
    /\ spans = [(17, 17 + String.length g);
                (17 + String.length g + 8, 17 + String.length g + 8 + String.length a);
                (17 + String.length g + 8 + String.length a + 7,
                 17 + String.length g + 8 + String.length a + 7 + String.length p)].
Proof.
  unfold pdb_re. intros E.
  apply run_lits_inv in E as (s0 & -> & E). cbn [app] in E. rewrite run_open in E.
  apply run_dotstar_inv in E as (x1 & s1 & -> & H1 & E).
  apply run_lit_inv in E as (s1' & -> & E).
  apply run_dotstar_inv in E as (x2 & s2 & -> & H2 & E).
  apply run_lit_inv in E as (s2' & -> & E).
  apply run_dotstar_inv in E as (x3 & s3 & -> & H3 & E).
  apply run_lit_inv in E as (s3' & -> & E).
  apply run_dotstar_inv in E as (x4 & s4 & -> & H4 & E).
  apply run_lit_inv in E as (s4' & -> & E).
  apply run_dotstar_inv in E as (x5 & s5 & -> & H5 & E).
  rewrite run_close in E.
  apply run_lits_inv in E as (s6 & -> & E). cbn [app] in E. rewrite run_open in E.
  apply run_dotstar_inv in E as (a & s7 & -> & Ha & E). rewrite run_close in E.
  apply run_lits_inv in E as (s8 & -> & E). cbn [app] in E. rewrite run_open in E.
  apply run_dotstar_inv in E as (p & s9 & -> & Hp & E). rewrite run_close in E.
  rewrite <- (app_nil_r (lits dquote)) in E.
  apply run_lits_inv in E as (rest & -> & E).
  apply run_nil_inv in E. subst spans.
  exists x1, x2, x3, x4, x5, a, p, rest. cbn zeta.
  split; [|split; [auto|split; [exact Ha|split; [exact Hp|]]]].
  - rewrite !str_app_assoc. rewrite !str_app_cons, !str_app_nil_l. reflexivity.
  - cbn [rev app]. rewrite !str_length_app. cbn [String.length dquote].
    repeat (apply (f_equal2 cons); [apply (f_equal2 pair); lia|]). reflexivity.
Qed.

(** Soundness of [pdb_re]: the three groups are where the pattern says. *)
Lemma pdb_re_sound line groups :
  match_groups pdb_re line = Some groups ->
  exists g a p rest,
    groups = [g; a; p]
    /\ line = dquote +:+ "[RSDS] PdbSig: {" +:+ g +:+ "}; Age: " +:+ a
               +:+ "; Pdb: " +:+ p +:+ dquote +:+ rest
    /\ no_lf g /\ no_lf a /\ no_lf p
    /\ exists x1 x2 x3 x4 x5,
         g = x1 +:+ "-" +:+ x2 +:+ "-" +:+ x3 +:+ "-" +:+ x4 +:+ "-" +:+ x5.
Proof.
  unfold match_groups. destruct (run pdb_re line 0 [] []) as [spans|] eqn:E; [|discriminate].
  apply pdb_re_run_inv in E
    as (x1 & x2 & x3 & x4 & x5 & a & p & rest & Hline & (H1 & H2 & H3 & H4 & H5) & Ha & Hp & ->).
  cbn zeta in Hline.
  set (g := x1 +:+ "-" +:+ x2 +:+ "-" +:+ x3 +:+ "-" +:+ x4 +:+ "-" +:+ x5) in *.
  intros [= <-]. exists g, a, p, rest. split; [|split; [|split; [|split; [exact Ha|split; [exact Hp|]]]]].
  - cbn [map]. f_equal; [|f_equal; [|f_equal]].
    + rewrite Hline.
      apply (substring_at (dquote +:+ "[RSDS] PdbSig: {")); [reflexivity|lia].
    + replace line
        with (((dquote +:+ "[RSDS] PdbSig: {") +:+ g +:+ "}; Age: ") +:+ a
                +:+ "; Pdb: " +:+ p +:+ dquote +:+ rest)
        by (rewrite Hline; by rewrite !str_app_assoc).
      apply substring_at; [|lia].
      rewrite !str_length_app. cbn [String.length dquote]. lia.
    + replace line
        with (((dquote +:+ "[RSDS] PdbSig: {") +:+ g +:+ "}; Age: " +:+ a +:+ "; Pdb: ")
                +:+ p +:+ dquote +:+ rest)
        by (rewrite Hline; by rewrite !str_app_assoc).
      apply substring_at; [|lia].
      rewrite !str_length_app. cbn [String.length dquote]. lia.
  - rewrite Hline. by rewrite !str_app_assoc.
  - subst g. unfold no_lf in *. rewrite !has_char_app. cbn [has_char].
    rewrite H1, H2, H3, H4, H5. reflexivity.
  - by exists x1, x2, x3, x4, x5.
Qed.

Lemma run_lit_fwd c ts s pos opened caps :
  run (Lit c :: ts) (String c s) pos opened caps = run ts s (S pos) opened caps.
Proof. cbn [run]. by rewrite Ascii.eqb_refl. Qed.

Lemma run_lits_fwd l ts s pos opened caps :
  run (lits l ++ ts) (l +:+ s) pos opened caps
  = run ts s (pos + String.length l) opened caps.
Proof.
  revert pos. induction l as [|c l IH]; intros pos.
  - by rewrite Nat.add_0_r.
  - cbn [lits app]. rewrite str_app_cons, run_lit_fwd, IH.
    cbn [String.length]. by rewrite Nat.add_succ_r.
Qed.

(** Backtracking is complete for a greedy run: when some split lets the
    rest of the pattern match, the search finds a match. *)
Lemma run_dotstar_some ts x s pos opened caps :
  no_lf x ->
  is_Some (run ts s (pos + String.length x) opened caps) ->
  is_Some (run (DotStar :: ts) (x +:+ s) pos opened caps).
Proof.
  revert pos. induction x as [|c x IH]; intros pos Hx Hrest.
  - rewrite Nat.add_0_r in Hrest. rewrite str_app_nil_l.
    destruct s as [|c s]; [by rewrite run_dotstar_nil|].
    rewrite run_dotstar_step. destruct (is_lf c); [exact Hrest|].
    by destruct (run (DotStar :: ts) s (S pos) opened caps).
  - unfold no_lf in Hx. cbn [has_char] in Hx. apply orb_false_elim in Hx as [Hc Hx].
    rewrite str_app_cons, run_dotstar_step. unfold is_lf. rewrite Hc.
    cbn [String.length] in Hrest. rewrite Nat.add_succ_r in Hrest.
    destruct (IH (S pos) Hx Hrest) as [r ->]. by eexists.
Qed.

(** A character that occurs once splits a string in one way only. *)
Lemma unique_split (c : ascii) (x y x' y' : string) :
  has_char c x = false -> has_char c y = false ->
  x +:+ String c y = x' +:+ String c y' ->
  x = x' /\ y = y'.
Proof.
  revert x'. induction x as [|a x IH]; intros x' Hx Hy E.
  - destruct x' as [|a' x'].
    + rewrite !str_app_nil_l in E. by injection E.
    + rewrite str_app_nil_l, str_app_cons in E. injection E as <- ->.
      rewrite has_char_app in Hy. cbn [has_char] in Hy.
      rewrite Ascii.eqb_refl, orb_true_r in Hy. discriminate.
  - cbn [has_char] in Hx. apply orb_false_elim in Hx as [Ha Hx].
    destruct x' as [|a' x'].
    + rewrite str_app_nil_l, str_app_cons in E. injection E as -> _.
      by rewrite Ascii.eqb_refl in Ha.
    + rewrite !str_app_cons in E. injection E as <- E.
      destruct (IH x' Hx Hy E) as [-> ->]. done.
Qed.

Lemma str_app_inv_head (a b c : string) : a +:+ b = a +:+ c -> b = c.
Proof.
  induction a as [|x a IH]; [done|]. rewrite !str_app_cons. intros [= E]. auto.
Qed.

End ReFacts.

Section PyStrFacts.
Import Text.

Lemma eqb_prefix_spec (p s : string) :
  PyStr.eqb_prefix p s = true <-> exists post, s = p +:+ post.
Proof.
  revert s. induction p as [|a p IH]; intros s.
  - split; [by exists s|done].
  - destruct s as [|b s]; cbn [PyStr.eqb_prefix].
    + split; [done|]. intros [post H]. by rewrite str_app_cons in H.
    + rewrite andb_true_iff, IH. split.
      * intros [->%Ascii.eqb_eq [post ->]]. by exists post.
      * intros [post H]. rewrite str_app_cons in H. injection H as -> ->.
        split; [apply Ascii.eqb_refl|by exists post].
Qed.

(** [s.count(sub) > 0] says that [sub] occurs in [s]. *)
Lemma count_positive (s sub : string) :
  sub <> "" ->
  (0 < PyStr.count s sub <-> occurs sub s).
Proof.
  intros Hsub. unfold PyStr.count, occurs. induction s as [|c s IH].
  - cbn [PyStr.count_from]. destruct sub as [|a sub]; [done|].
    cbn [PyStr.eqb_prefix]. split; [lia|].
    intros (pre & post & H). destruct pre; by rewrite ?str_app_nil_l, str_app_cons in H.
  - cbn [PyStr.count_from]. destruct (PyStr.eqb_prefix sub (String c s)) eqn:Hp.
    + split; [|lia]. intros _. apply eqb_prefix_spec in Hp as [post ->].
      by exists "", post.
    + rewrite IH. split.
      * intros (pre & post & ->). by exists (String c pre), post.
      * intros (pre & post & H). destruct pre as [|c' pre].
        -- rewrite str_app_nil_l in H.
           assert (PyStr.eqb_prefix sub (String c s) = true)
             by (apply eqb_prefix_spec; by exists post).
           congruence.
        -- rewrite str_app_cons in H. injection H as -> ->. by exists pre, post.
Qed.

Lemma replace_char_delete (c : ascii) (s : string) :
  PyStr.replace s (String c "") "" = delete_char c s.
Proof.
  unfold PyStr.replace. induction s as [|x s IH]; [reflexivity|].
  cbn [PyStr.replace_from PyStr.eqb_prefix delete_char String.length Nat.sub].
  rewrite andb_true_r, Ascii.eqb_sym.
  destruct (Ascii.eqb x c); [by rewrite str_app_nil_l|by rewrite IH].
Qed.

Lemma delete_char_gone c s : has_char c (delete_char c s) = false.
Proof.
  induction s as [|x s IH]; [reflexivity|]. cbn [delete_char].
  destruct (Ascii.eqb x c) eqn:E; [exact IH|]. cbn [has_char]. by rewrite E.
Qed.

Lemma delete_char_id c s : has_char c s = false -> delete_char c s = s.
Proof.
  induction s as [|x s IH]; [reflexivity|]. cbn [has_char delete_char].
  intros [-> H]%orb_false_elim. by rewrite IH.
Qed.

Lemma delete_char_app c a b :
  delete_char c (a +:+ b) = delete_char c a +:+ delete_char c b.
Proof.
  induction a as [|x a IH]; [reflexivity|]. rewrite str_app_cons. cbn [delete_char].
  destruct (Ascii.eqb x c); [exact IH|]. by rewrite str_app_cons, IH.
Qed.

Lemma delete_char_other c d s :
  d <> c -> has_char d (delete_char c s) = has_char d s.
Proof.
  intros Hd. induction s as [|x s IH]; [reflexivity|]. cbn [delete_char has_char].
  destruct (Ascii.eqb_spec x c) as [->|].
  - rewrite IH. destruct (Ascii.eqb_spec c d); [congruence|reflexivity].
  - cbn [has_char]. by rewrite IH.
Qed.

End PyStrFacts.

Section NtPathFacts.
Import Text.

Lemma cut_last_sep_spec (p : string) :
  p = (NtPath.cut_last_sep p).1 +:+ (NtPath.cut_last_sep p).2
  /\ no_sep (NtPath.cut_last_sep p).2.
Proof.
  induction p as [|c p [IH1 IH2]]; [done|].
  cbn [NtPath.cut_last_sep].
  destruct (NtPath.cut_last_sep p) as [[|h0 h] t] eqn:E; cbn [fst snd] in *.
  - rewrite str_app_nil_l in IH1. subst t.
    destruct (NtPath.is_sep c) eqn:Hc; cbn [fst snd].
    + done.
    + split; [done|]. destruct IH2 as [H1 H2]. unfold no_sep. cbn [has_char].
      unfold NtPath.is_sep in Hc. apply orb_false_elim in Hc as [-> ->]. by rewrite H1, H2.
  - split; [|exact IH2]. rewrite IH1 at 1. reflexivity.
Qed.

End NtPathFacts.


Section PreflightFacts.
Import Py Script Scan Run Effects.
Context (h : host).

(** The copy loop of lines 121-126: what it has done when it stops. *)
Lemma copy_loop_effects (script_dir : string) (names : list string) (s : state) r s' :
  for_each names
    (fun third_party =>
       present ← path_exists h third_party;
       if negb present then
         copy2 h
           (NtPath.normpath (NtPath.join script_dir ["..\third_party"; third_party]))
           (NtPath.normpath (NtPath.join script_dir [third_party]))
       else mret tt) s = (r, s') ->
  exists copied,
    copied `sublist_of` names
    /\ events s' = events s ++ map (copy_event script_dir) copied
    /\ fs s' = list_to_set (map (fun n => resolve h (copy_dest script_dir n)) copied) ∪ fs s
    /\ environ s' = environ s /\ stdout s' = stdout s /\ globals s' = globals s
    /\ match r with
       | Ok _ =>
           forall n, n ∈ names ->
             resolve h n ∈ fs s' \/ resolve h (copy_dest script_dir n) ∈ fs s'
       | Raise e =>
           exists n, n ∈ names /\ e = IOError (copy_source script_dir n)
                     /\ (resolve h n ∉ fs s')
                     /\ (resolve h (copy_source script_dir n) ∉ fs s')
       end.
Proof.
  revert s. induction names as [|n names IH]; intros s E.
  - injection E as <- <-. exists []. cbn [map]. rewrite app_nil_r.
    repeat split; try done; [set_solver|]. intros n Hn. by apply elem_of_nil in Hn.
  - rewrite for_each_cons, bind_run, bind_run in E. unfold path_exists at 1 in E.
    fold (copy_source script_dir n) in E. fold (copy_dest script_dir n) in E.
    destruct (decide (resolve h n ∈ fs s)) as [Hn|Hn].
    + rewrite bool_decide_eq_true_2 in E by exact Hn. cbn [negb] in E.
      rewrite ret_run in E.
      destruct (IH _ E) as (copied & Hsub & Hev & Hfs & Henv & Hout & Hg & Hr).
      exists copied. split; [by apply sublist_cons|]. repeat split; try done.
      destruct r as [[]|e].
      * intros m [->|Hm]%elem_of_cons; [|by apply Hr]. left. rewrite Hfs. set_solver.
      * destruct Hr as (m & Hm & Hr). exists m. split; [by right|exact Hr].
    + rewrite bool_decide_eq_false_2 in E by exact Hn. cbn [negb] in E.
      unfold copy2 at 1 in E.
      destruct (decide (resolve h (copy_source script_dir n) ∈ fs s)) as [Hsrc|Hsrc].
      * rewrite bool_decide_eq_true_2 in E by exact Hsrc.
        destruct (IH _ E) as (copied & Hsub & Hev & Hfs & Henv & Hout & Hg & Hr).
        cbn [events fs environ stdout globals add_event set_fs] in *.
        exists (n :: copied). split; [by apply sublist_skip|].
        split; [rewrite Hev; cbn [map]; by rewrite <- app_assoc|].
        split; [rewrite Hfs; cbn [map]; set_solver|].
        repeat split; try done.
        destruct r as [[]|e].
        -- intros m [->|Hm]%elem_of_cons; [|by apply Hr]. right. rewrite Hfs. set_solver.
        -- destruct Hr as (m & Hm & Hr). exists m. split; [by right|exact Hr].
      * rewrite bool_decide_eq_false_2 in E by exact Hsrc. injection E as <- <-.
        exists []. cbn [map]. rewrite app_nil_r. split; [apply sublist_nil_l|].
        repeat split; try done; [set_solver|].
        exists n. repeat split; try done. by left.
Qed.

(** The copy loop stops at the first support file that exists neither
    under its bare name nor in third_party, when the files before it exist
    under their bare names. *)
Lemma copy_loop_missing (script_dir : string) (before after : list string)
      (n : string) (s : state) :
  (forall m, m ∈ before -> resolve h m ∈ fs s) ->
  resolve h n ∉ fs s ->
  resolve h (copy_source script_dir n) ∉ fs s ->
  for_each (before ++ n :: after)
    (fun third_party =>
       present ← path_exists h third_party;
       if negb present then
         copy2 h
           (NtPath.normpath (NtPath.join script_dir ["..\third_party"; third_party]))
           (NtPath.normpath (NtPath.join script_dir [third_party]))
       else mret tt) s
  = (Raise (IOError (copy_source script_dir n)), s).
Proof.
  intros Hbefore Hn Hsrc.
  induction before as [|m before IH]; cbn [app].
  - rewrite for_each_cons, bind_run, bind_run. unfold path_exists at 1.
    rewrite bool_decide_eq_false_2 by exact Hn. cbn [negb].
    unfold copy2 at 1. fold (copy_source script_dir n).
    by rewrite bool_decide_eq_false_2 by exact Hsrc.
  - rewrite for_each_cons, bind_run, bind_run. unfold path_exists at 1.
    rewrite bool_decide_eq_true_2 by (apply Hbefore; by left). cbn [negb].
    rewrite ret_run. apply IH. intros k Hk. apply Hbefore. by right.
Qed.

(** Every way the preflight of lines 105-134 can end, with what it has done
    by then. *)
Lemma preflight_effects (sys_argv : list string) (s : state) r s' :
  preflight h sys_argv s = (r, s') ->
  let dir := (NtPath.split (hd "" sys_argv)).1 in
  exists copied,
    copied `sublist_of` support_files
    /\ events s' = events s ++ map (copy_event dir) copied
    /\ fs s' = list_to_set (map (fun n => resolve h (copy_dest dir n)) copied) ∪ fs s
    /\ environ s' = environ s /\ globals s' = globals s
    /\ match r with
       | Ok _ =>
           stdout s' = stdout s
           /\ 2 <= length sys_argv
           /\ 0 < marker_count s
           /\ resolve h (NtPath.join dir ["pdbcopy.exe"]) ∈ fs s'
           /\ resolve h (NtPath.join dir ["RetrieveSymbols.exe"]) ∈ fs s'
           /\ (forall n, n ∈ support_files ->
                 resolve h n ∈ fs s' \/ resolve h (copy_dest dir n) ∈ fs s')
       | Raise (SystemExit code) =>
           code = 0%Z /\ exists message, stdout s' = stdout s ++ [message]
       | Raise (IOError path) =>
           stdout s' = stdout s
           /\ exists n, n ∈ support_files /\ path = copy_source dir n
                        /\ (resolve h n ∉ fs s') /\ (resolve h path ∉ fs s')
       | Raise IndexError => sys_argv = []
       | Raise _ => False
       end.
Proof.
  intros E dir. unfold preflight in E.
  assert (Hnone : forall t : state,
            [] `sublist_of` support_files
            /\ events t = events t ++ map (copy_event dir) []
            /\ fs t = list_to_set (map (fun n => resolve h (copy_dest dir n)) []) ∪ fs t).
  { intros t. cbn [map]. rewrite app_nil_r. split; [apply sublist_nil_l|]. split; [done|set_solver]. }
  destruct sys_argv as [|argv0 [|tracename rest]].
  - injection E as <- <-. exists []. destruct (Hnone s) as (? & ? & ?). by repeat split.
  - injection E as <- <-. exists []. destruct (Hnone s) as (? & ? & ?).
    repeat split; try done. by eexists.
  - subst dir. cbn [hd] in *.
    unfold mbind, M_bind, bind, mret, M_ret, ret, environ_get, print,
      sys_exit, raise, index, path_exists in E.
    cbn [length Nat.ltb Nat.leb nth_error] in E. cbv beta iota in E.
    fold (marker_count s) in E.
    destruct (Nat.eqb_spec (marker_count s) 0) as [Hm|Hm].
    { injection E as <- <-. exists []. destruct (Hnone s) as (? & ? & ?).
      repeat split; try done. by eexists. }
    cbv beta iota in E. unfold ret in E. cbv beta iota in E.
    match type of E with
    | context [for_each ?l ?b s] =>
        destruct (for_each l b s) as [r1 s1] eqn:El;
        assert (El' : for_each support_files
                        (fun third_party =>
                           present ← path_exists h third_party;
                           if negb present then
                             copy2 h
                               (NtPath.normpath
                                  (NtPath.join (NtPath.split argv0).1 ["..\third_party"; third_party]))
                               (NtPath.normpath (NtPath.join (NtPath.split argv0).1 [third_party]))
                           else mret tt) s = (r1, s1)) by exact El
    end.
    apply copy_loop_effects in El'
      as (copied & Hsub & Hev & Hfs & Henv & Hout & Hg & Hr).
    exists copied.
    destruct r1 as [[]|e].
    2:{ injection E as <- <-. destruct Hr as (n & Hn & -> & Hr).
        repeat split; try done. by exists n. }
    destruct (bool_decide (resolve h (NtPath.join _ ["pdbcopy.exe"]) ∈ fs s1)) eqn:Hp;
      cbn [negb] in E.
    2:{ injection E as <- <-. cbn [events fs environ globals stdout add_line].
        repeat split; try done. eexists. by rewrite Hout. }
    destruct (bool_decide (resolve h (NtPath.join _ ["RetrieveSymbols.exe"]) ∈ fs s1)) eqn:Hq;
      cbn [negb] in E.
    2:{ injection E as <- <-. cbn [events fs environ globals stdout add_line].
        repeat split; try done. eexists. by rewrite Hout. }
    injection E as <- <-.
    apply bool_decide_eq_true_1 in Hp, Hq.
    repeat split; try done; [cbn [length]; lia|lia].
Qed.

End PreflightFacts.

Section RunExtras.
Import Py Script Scan Run Effects Examples.

(** X1: without a trace argument the script prints its usage line, and with
    one but without the Chromium symbol server in _NT_SYMBOL_PATH (unset
    counts as empty) it prints that no stripping is needed. In both cases it
    exits with status 0 before touching anything: nothing is copied, no tool
    is started, the file system is as it was. *)
Theorem early_exit_has_no_effect (h : host) (argv0 : string) (args : list string)
        (files : gset string) (env : gmap string string) :
  args = [] \/ marker_count (initial files env) = 0 ->
  exists message,
    run h argv0 args files env
    = (Raise (SystemExit 0), add_line message (initial files env))
    /\ message
       = match args with
         | [] => "Usage: " +:+ argv0 +:+ " trace.etl"
         | _ => "Chromium symbol server is not in _NT_SYMBOL_PATH. No symbol stripping needed."
         end.
Proof.
  intros Hcase. unfold run, main.
  destruct args as [|tracename rest].
  - eexists. split; reflexivity.
  - destruct Hcase as [?|Hm]; [done|].
    eexists. split; [|reflexivity].
    unfold preflight.
    unfold mbind, M_bind, bind, mret, M_ret, ret, environ_get, print,
      sys_exit, raise, index, path_exists.
    cbn [length Nat.ltb Nat.leb nth_error]. cbv beta iota.
    fold (marker_count (initial files env)). rewrite Hm. reflexivity.
Qed.

Lemma early_exit_has_no_effect_witness :
  (run (machine "C:\etw\bin" [chrome_line]) script ["trace.etl"] installed ∅).1
  = Raise (SystemExit 0)
  /\ events (run (machine "C:\etw\bin" [chrome_line]) script ["trace.etl"] installed ∅).2
     = [].
Proof.
  destruct (early_exit_has_no_effect (machine "C:\etw\bin" [chrome_line]) script
              ["trace.etl"] installed ∅) as (message & E & _).
  - right. vm_compute. reflexivity.
  - rewrite E. split; reflexivity.
Defined.

(** X2: for a script path without UNC prefix, when the preflight passes,
    pdbcopy.exe and RetrieveSymbols.exe exist in the script directory, the
    symbol path names the Chromium symbol server, and every support file
    exists under its bare name or in the script directory. The preflight
    has printed nothing, has left the environment alone, and has changed
    the file system only by copying support files from third_party into the
    script directory. *)
Theorem preflight_postcondition (h : host) (sys_argv : list string) (s s1 : state) :
  NtPath.has_unc_prefix (hd "" sys_argv) = false ->
  preflight h sys_argv s = (Ok tt, s1) ->
  let dir := (NtPath.split (hd "" sys_argv)).1 in
  resolve h (NtPath.join dir ["pdbcopy.exe"]) ∈ fs s1
  /\ resolve h (NtPath.join dir ["RetrieveSymbols.exe"]) ∈ fs s1
  /\ 0 < marker_count s
  /\ 2 <= length sys_argv
  /\ (forall n, n ∈ support_files ->
        resolve h n ∈ fs s1 \/ resolve h (copy_dest dir n) ∈ fs s1)
  /\ stdout s1 = stdout s /\ environ s1 = environ s
  /\ exists copied,
       copied `sublist_of` support_files
       /\ events s1 = events s ++ map (copy_event dir) copied
       /\ fs s1 = list_to_set (map (fun n => resolve h (copy_dest dir n)) copied) ∪ fs s.
Proof.
  intros _ E dir.
  destruct (preflight_effects h _ _ _ _ E)
    as (copied & Hsub & Hev & Hfs & Henv & Hg & Hout & Hlen & Hm & Hp & Hr & Hall).
  repeat split; try done. by exists copied.
Qed.

Lemma preflight_postcondition_witness :
  let h := machine "C:\etw\bin" [] in
  let files : gset string :=
    list_to_set ["C:\etw\bin\RetrieveSymbols.exe"; "C:\etw\third_party\pdbcopy.exe";
                 "C:\etw\third_party\dbghelp.dll"; "C:\etw\third_party\symsrv.dll"] in
  let r := preflight h [script; "trace.etl"] (initial files symbol_env) in
  r.1 = Ok tt /\ ("C:\etw\bin\pdbcopy.exe" ∈ fs r.2).
Proof.
  intros h files r.
  assert (E : r = (Ok tt, r.2)) by (vm_compute; reflexivity).
  subst r. split; [by rewrite E|].
  assert (Hlocal : NtPath.has_unc_prefix (hd "" [script; "trace.etl"]) = false)
    by reflexivity.
  destruct (preflight_postcondition h _ _ _ Hlocal E) as (Hp & _).
  exact Hp.
Defined.

(** X3: a missing support file stops the preflight with an I/O error. For
    a script path without UNC prefix, a trace argument and a symbol path
    that names the Chromium symbol server: when a support file exists
    neither under its bare name nor in third_party, and the support files
    before it in the list of line 121 exist under their bare names, the
    preflight raises the I/O error of [shutil.copy2] for the third_party
    path of that file. By then it has printed nothing and copied nothing,
    and the checks of lines 128-134 are not reached. *)
Theorem preflight_io_error (h : host) (argv0 tracename : string) (rest : list string)
        (s : state) (before after : list string) (n : string) :
  let dir := (NtPath.split argv0).1 in
  NtPath.has_unc_prefix argv0 = false ->
  0 < marker_count s ->
  support_files = before ++ n :: after ->
  (forall m, m ∈ before -> resolve h m ∈ fs s) ->
  resolve h n ∉ fs s ->
  resolve h (copy_source dir n) ∉ fs s ->
  preflight h (argv0 :: tracename :: rest) s
  = (Raise (IOError (copy_source dir n)), s).
Proof.
  intros dir _ Hm Hsplit Hbefore Hn Hsrc. unfold preflight.
  unfold mbind, M_bind, bind, mret, M_ret, ret, environ_get, print,
    sys_exit, raise, index.
  cbn [length Nat.ltb Nat.leb nth_error]. cbv beta iota.
  fold (marker_count s).
  destruct (Nat.eqb_spec (marker_count s) 0) as [Hz|_]; [lia|].
  cbv beta iota. unfold ret. cbv beta iota.
  pose proof (copy_loop_missing h dir before after n s Hbefore Hn Hsrc) as Hloop.
  rewrite <- Hsplit in Hloop.
  match goal with
  | |- context [for_each ?l ?b s] =>
      assert (El : for_each l b s = (Raise (IOError (copy_source dir n)), s))
        by exact Hloop;
      rewrite El
  end.
  reflexivity.
Qed.

Lemma preflight_io_error_witness :
  let h := machine "C:\etw\bin" [] in
  let files : gset string :=
    list_to_set ["C:\etw\bin\RetrieveSymbols.exe"; "C:\etw\bin\pdbcopy.exe";
                 "C:\etw\third_party\symsrv.dll"] in
  preflight h [script; "trace.etl"] (initial files symbol_env)
  = (Raise (IOError "C:\etw\third_party\dbghelp.dll"), initial files symbol_env).
Proof.
  intros h files.
  apply (preflight_io_error h script "trace.etl" [] (initial files symbol_env)
           ["pdbcopy.exe"] ["symsrv.dll"] "dbghelp.dll").
  - reflexivity.
  - vm_compute. lia.
  - reflexivity.
  - intros m Hm. apply list_elem_of_singleton in Hm as ->. by_compute.
  - by_compute.
  - by_compute.
Defined.

(** X4: whatever the script path, the trace and the machine, a run of the
    script calls [shutil.copy2] at most three times and then starts the
    enumerator at most once, and does nothing else: it starts no retrieval
    and no stripping, creates no temporary directory, renames and deletes
    nothing, and leaves the environment as it found it. For a script path
    without UNC prefix the copies are those of support files from
    third_party into the script directory, in the order of line 121. *)
Theorem run_footprint (h : host) (argv0 : string) (args : list string)
        (files : gset string) (env : gmap string string) :
  let r := run h argv0 args files env in
  let dir := (NtPath.split argv0).1 in
  exists copies scanned,
    events r.2 = copies ++ scanned
    /\ Forall is_copy copies
    /\ length copies <= 3
    /\ (NtPath.has_unc_prefix argv0 = false ->
        exists copied,
          copied `sublist_of` support_files
          /\ copies = map (copy_event dir) copied)
    /\ (scanned = []
        \/ exists tracename rest,
             args = tracename :: rest /\ scanned = [EPopen (scan_command tracename)])
    /\ environ r.2 = env.
Proof.
  cbn zeta. unfold run, main.
  destruct (preflight h (argv0 :: args) (initial files env)) as [r1 s1] eqn:Ep.
  destruct (preflight_effects h _ _ _ _ Ep)
    as (copied & Hsub & Hev & Hfs & Henv & Hg & Hr).
  cbn [hd] in *. exists (map (copy_event (NtPath.split argv0).1) copied).
  assert (Hcopies : Forall is_copy (map (copy_event (NtPath.split argv0).1) copied)).
  { generalize copied as l. intros l.
    induction l as [|n l IH]; cbn [map]; constructor; [|exact IH].
    unfold copy_event. by eexists _, _. }
  assert (Hlen3 : length (map (copy_event (NtPath.split argv0).1) copied) <= 3).
  { rewrite length_map. apply (sublist_length _ _ Hsub). }
  destruct r1 as [[]|e].
  - destruct Hr as (_ & Hlen & _).
    destruct args as [|tracename rest]; [cbn [length] in Hlen; lia|].
    exists [EPopen (scan_command tracename)].
    rewrite (bind_ok _ _ _ _ _ Ep).
    assert (Hfree : globals s1 !! "symcache_files" = None)
      by (rewrite Hg; vm_compute; reflexivity).
    destruct (translate_cases h argv0 tracename rest s1 Hfree)
      as [[_ Et]|[_ (g & a & p & Et)]]; rewrite Et;
      cbn [snd events environ add_line after_scan_command before_scan add_event set_fs];
      (split; [by rewrite Hev, <- app_assoc|]);
      (split; [exact Hcopies|]); (split; [exact Hlen3|]);
      (split; [intros _; by exists copied|]);
      (split; [right; by eauto|exact Henv]).
  - exists []. rewrite (bind_raise _ _ _ _ _ Ep). cbn [snd].
    split; [by rewrite app_nil_r|]. split; [exact Hcopies|]. split; [exact Hlen3|].
    split; [intros _; by exists copied|]. split; [by left|exact Henv].
Qed.

Lemma run_footprint_witness :
  exists copies scanned copied,
    events (run (machine "C:\traces" [chrome_line]) script ["trace.etl"]
              stray_pdbcopy symbol_env).2
    = copies ++ scanned
    /\ copied `sublist_of` support_files
    /\ copies = map (copy_event "C:\etw\bin") copied.
Proof.
  destruct (run_footprint (machine "C:\traces" [chrome_line]) script ["trace.etl"]
              stray_pdbcopy symbol_env) as (copies & scanned & Hev & _ & _ & Hlocal & _).
  destruct Hlocal as (copied & Hsub & Hcopies); [reflexivity|].
  exists copies, scanned, copied. split; [exact Hev|]. split; [exact Hsub|exact Hcopies].
Defined.

(** X5: in the script's own namespace [run_and_look_for_matches] never
    returns True. When it returns at all it returns False, has started the
    enumerator only, and every reference of the trace has its symcache file;
    so a run that completes has printed No uncached PDBS found, nothing to
    do. as its last line, and the branch of line 188 is never taken. *)
Theorem scan_returns_only_false (h : host) :
  (forall command s found s',
     globals s !! "symcache_files" = None ->
     run_and_look_for_matches h command s = (Ok found, s') ->
     found = false
     /\ s' = after_scan_command h command s
     /\ Forall (settled h (fs s')) (scan_output h command s))
  /\ (forall argv0 args files env s',
        run h argv0 args files env = (Ok tt, s') ->
        exists tracename rest s1,
          args = tracename :: rest
          /\ preflight h (argv0 :: args) (initial files env) = (Ok tt, s1)
          /\ s' = add_line "No uncached PDBS found, nothing to do."
                    (after_scan_command h (scan_command tracename)
                       (before_scan tracename s1))
          /\ Forall (settled h (fs s'))
               (scan_output h (scan_command tracename) (before_scan tracename s1))).
Proof.
  split.
  - intros command s found s' Hfree E.
    destruct (run_and_look_for_matches_cases h command s Hfree)
      as [[Hall E']|[_ (g & a & p & E')]]; rewrite E in E'; [|discriminate].
    injection E' as -> ->. done.
  - intros argv0 args files env s' E. unfold run, main in E.
    destruct (preflight h (argv0 :: args) (initial files env)) as [r1 s1] eqn:Ep.
    destruct (preflight_effects h _ _ _ _ Ep) as (copied & _ & _ & _ & _ & Hg & Hr).
    destruct r1 as [[]|e]; [|by rewrite (bind_raise _ _ _ _ _ Ep) in E].
    destruct Hr as (_ & Hlen & _).
    destruct args as [|tracename rest]; [cbn [length] in Hlen; lia|].
    rewrite (bind_ok _ _ _ _ _ Ep) in E.
    assert (Hfree : globals s1 !! "symcache_files" = None)
      by (rewrite Hg; vm_compute; reflexivity).
    destruct (translate_cases h argv0 tracename rest s1 Hfree)
      as [[Hall Et]|[_ (g & a & p & Et)]]; rewrite Et in E; [|discriminate].
    injection E as <-. by exists tracename, rest, s1.
Qed.

Lemma scan_returns_only_false_witness :
  let h := machine "C:\etw\bin" [kernel_line; chrome_line] in
  let r := run h script ["trace.etl"] ({[chrome_symcache]} ∪ installed) symbol_env in
  r.1 = Ok tt
  /\ last (stdout r.2) = Some "No uncached PDBS found, nothing to do.".
Proof.
  intros h r.
  assert (E : r = (Ok tt, r.2)) by (vm_compute; reflexivity).
  subst r. split; [by rewrite E|].
  destruct (scan_returns_only_false h) as [_ H].
  destruct (H _ _ _ _ _ E) as (tracename & rest & s1 & _ & _ & -> & _).
  cbn [stdout add_line]. by rewrite last_snoc.
Defined.

End RunExtras.

Section RebuildExtras.
Import Py Script Scan Run Effects Examples.
Context (h : host).

Lemma for_each_app {A} (l1 l2 : list A) (body : A -> M unit) (s : state) :
  for_each (l1 ++ l2) body s = (for_each l1 body ≫= fun _ => for_each l2 body) s.
Proof.
  revert s. induction l1 as [|x l1 IH]; intros s; [reflexivity|].
  cbn [app]. rewrite for_each_cons, !bind_run, for_each_cons, bind_run.
  destruct (body x s) as [[[]|e] s1]; [|reflexivity]. by rewrite IH, bind_run.
Qed.

(** A loop keeps what each turn of its body keeps. *)
Lemma for_each_keeps {A} (I : state -> Prop) (l : list A) (body : A -> M unit) :
  (forall x s, I s -> I (body x s).2) ->
  forall s, I s -> I (for_each l body s).2.
Proof.
  intros Hbody. induction l as [|x l IH]; intros s Hs; [exact Hs|].
  rewrite for_each_cons, bind_run. specialize (Hbody x s Hs).
  destruct (body x s) as [[[]|e] s1]; cbn [snd] in *; [by apply IH|exact Hbody].
Qed.

Lemma rename_keeps_environ src dst s : environ (rename h src dst s).2 = environ s.
Proof. unfold rename. by repeat case_bool_decide. Qed.

End RebuildExtras.

Section RebuildTheorems.
Import Py Script Scan Run Effects Examples.

(** X6: the block of lines 156-171 overwrites _NT_SYMBOL_PATH with the
    temporary directories joined by semicolons and never puts the old value
    back, whether the block completes or a rename fails. *)
Theorem rebuild_overwrites_symbol_path
        (h : host) (tracename : string) (tempdirs local_symbol_files : list string)
        (s : state) :
  environ (rebuild h tracename tempdirs local_symbol_files s).2
  = <["_NT_SYMBOL_PATH" := PyStr.join ";" tempdirs]> (environ s).
Proof.
  unfold rebuild. rewrite bind_run. unfold print at 1.
  rewrite bind_run. unfold setenv at 1.
  set (s0 := add_event _ (set_environ _ (add_line _ s))).
  set (e := <["_NT_SYMBOL_PATH" := PyStr.join ";" tempdirs]> (environ s)).
  assert (H0 : environ s0 = e) by reflexivity.
  rewrite bind_run.
  pose proof (for_each_keeps (fun t => environ t = e) local_symbol_files
                (fun local_pdb =>
                   print ("Renaming " +:+ local_pdb +:+ " to " +:+ (local_pdb +:+ "x")
                            +:+ " to stop unstripped PDBs from being used.") ;;
                   rename h local_pdb (local_pdb +:+ "x"))) as Hfwd.
  cbv beta in Hfwd. specialize (Hfwd (fun p t Ht =>
    eq_trans (rename_keeps_environ h p (p +:+ "x") (add_line _ t)) Ht) s0 H0).
  destruct (for_each local_symbol_files _ s0) as [[[]|err] s1]; cbn [snd] in Hfwd;
    [|exact Hfwd].
  rewrite bind_run. unfold print at 1. rewrite bind_run. unfold popen.
  destruct (run_tool h (gen_command tracename) _ _) as [out fs2].
  apply (for_each_keeps (fun t => environ t = e)).
  - intros p t Ht. by rewrite rename_keeps_environ.
  - exact Hfwd.
Qed.

Lemma rebuild_overwrites_symbol_path_witness :
  environ (rebuild (machine "C:\etw\bin" []) "trace.etl" ["C:\Temp\a"; "C:\Temp\b"] []
             (initial installed symbol_env)).2 !! "_NT_SYMBOL_PATH"
  = Some "C:\Temp\a;C:\Temp\b".
Proof.
  rewrite (rebuild_overwrites_symbol_path (machine "C:\etw\bin" []) "trace.etl"
             ["C:\Temp\a"; "C:\Temp\b"] [] (initial installed symbol_env)).
  by rewrite lookup_insert_eq.
Defined.

(** X7: a rename that cannot be done stops the block at once. If the local
    symbol files before it could be renamed, and the next one is missing or
    is a second mention of one of them, the block raises OSError for that
    file with the files before it left under their temporary names and the
    build not started. *)
Theorem rebuild_failed_rename_strands_files
        (h : host) (tracename : string) (tempdirs renamed : list string)
        (p : string) (rest : list string) (s : state) :
  let names := map (fun q => resolve h q) renamed in
  let moved := map (fun q => resolve h (q +:+ "x")) renamed in
  NoDup (names ++ moved) ->
  (forall q, q ∈ renamed -> resolve h q ∈ fs s) ->
  (forall q, q ∈ renamed -> resolve h (q +:+ "x") ∉ fs s) ->
  resolve h p ∉ fs s \/ resolve h p ∈ names ->
  resolve h p ∉ moved ->
  exists s',
    rebuild h tracename tempdirs (renamed ++ p :: rest) s = (Raise (OSError p), s')
    /\ events s'
       = events s ++ [ESetenv "_NT_SYMBOL_PATH" (PyStr.join ";" tempdirs)]
           ++ map (fun q => ERename q (q +:+ "x")) renamed
    /\ (forall q, q ∈ renamed ->
          (resolve h q ∉ fs s') /\ (resolve h (q +:+ "x") ∈ fs s')).
Proof.
  intros names moved Hnd Hsrc Hdst Hp Hpm.
  pose proof Hnd as Hnd'. apply NoDup_app in Hnd' as (_ & Hdisj & _).
  unfold rebuild. rewrite bind_run. unfold print at 1.
  rewrite bind_run. unfold setenv at 1.
  set (s0 := add_event _ (set_environ _ (add_line _ s))).
  rewrite bind_run, for_each_app, bind_run.
  destruct (rename_loop h (fun p => p) (fun p => p +:+ "x")
              (fun local_pdb =>
                 print ("Renaming " +:+ local_pdb +:+ " to " +:+ (local_pdb +:+ "x")
                          +:+ " to stop unstripped PDBs from being used.") ;;
                 rename h local_pdb (local_pdb +:+ "x"))
              renamed) with (s := s0)
    as (s1 & E1 & Hev1 & Henv1 & Hfs1); [|exact Hnd|exact Hsrc|exact Hdst|].
  { intros q t Hq Hqx. eexists. split.
    - rewrite bind_run. unfold print.
      rewrite (rename_run h q (q +:+ "x") (add_line _ t)) by assumption. reflexivity.
    - done. }
  rewrite E1. rewrite for_each_cons, bind_run, bind_run. unfold print at 1.
  assert (Hgone : resolve h p ∉ fs s1).
  { rewrite Hfs1. intros [[Hin Hnot]|Hin]; [|by apply Hpm].
    destruct Hp as [Hp|Hp]; [by apply Hp|by apply Hnot]. }
  unfold rename at 1. cbn [fs add_line].
  rewrite bool_decide_eq_false_2 by exact Hgone.
  eexists. split; [reflexivity|]. cbn [events fs add_line]. split.
  - rewrite Hev1. subst s0. cbn [events add_event set_environ add_line].
    by rewrite <- !app_assoc.
  - intros q Hq.
    assert (Hn : resolve h q ∈ names) by (by apply (elem_of_map_2 (resolve h))).
    assert (Hm : resolve h (q +:+ "x") ∈ moved)
      by (by apply (elem_of_map_2 (fun q => resolve h (q +:+ "x")))).
    rewrite !Hfs1. split; [|by right].
    intros [[_ Hnot]|Hin]; [by apply Hnot|]. by apply (Hdisj _ Hn).
Qed.

Lemma rebuild_failed_rename_strands_files_witness :
  let h := machine "C:\etw\bin" [] in
  let s := initial ({["C:\x\chrome.dll.pdb"]} ∪ installed) symbol_env in
  let r := rebuild h "trace.etl" ["C:\Temp\tmp1"]
             ["C:\x\chrome.dll.pdb"; "C:\x\chrome.dll.pdb"] s in
  r.1 = Raise (OSError "C:\x\chrome.dll.pdb")
  /\ ("C:\x\chrome.dll.pdb" ∉ fs r.2)
  /\ ("C:\x\chrome.dll.pdbx" ∈ fs r.2).
Proof.
  intros h s r.
  destruct (rebuild_failed_rename_strands_files h "trace.etl" ["C:\Temp\tmp1"]
              ["C:\x\chrome.dll.pdb"] "C:\x\chrome.dll.pdb" [] s)
    as (s' & E & _ & H).
  - by_compute.
  - intros q ->%list_elem_of_singleton. by_compute.
  - intros q ->%list_elem_of_singleton. by_compute.
  - right. by_compute.
  - by_compute.
  - subst r. cbn [app] in E. rewrite E. split; [reflexivity|].
    apply (H "C:\x\chrome.dll.pdb"). by apply list_elem_of_singleton.
Defined.

End RebuildTheorems.

Section ScanBound.
Import Py Script Scan Run Effects Examples.
Context (h : host).

Lemma add_lines_nil s : add_lines [] s = s.
Proof. destruct s. unfold add_lines. cbn. by rewrite app_nil_r. Qed.

Lemma add_lines_cons line lines s :
  add_lines lines (add_line line s) = add_lines (line :: lines) s.
Proof. unfold add_lines, add_line. cbn. by rewrite <- app_assoc. Qed.

Lemma print_loop (lines : list string) (s : state) :
  for_each lines (fun line => print (PyStr.strip (python3 h) line)) s
  = (Ok tt, add_lines (map (PyStr.strip (python3 h)) lines) s).
Proof.
  revert s. induction lines as [|l lines IH]; intros s.
  - by rewrite add_lines_nil.
  - rewrite for_each_cons, bind_run. unfold print at 1. rewrite IH.
    cbn [map]. by rewrite add_lines_cons.
Qed.

(** Lines 82-86: the loop over the retrieval tool's output echoes every
    line and keeps the path of the last success line. *)
Lemma retrieval_loop (sublines : list string) (acc : option string) (s : state) :
  for_fold sublines acc
    (fun subline pdb_cache_path =>
       print (PyStr.strip (python3 h) subline) ;;
       match Re.match_groups Re.pdb_cached_re (PyStr.strip (python3 h) subline) with
       | Some (placed :: _) => mret (Some placed)
       | _ => mret pdb_cache_path
       end) s
  = (Ok (fold_left
           (fun pdb_cache_path subline =>
              match Re.match_groups Re.pdb_cached_re (PyStr.strip (python3 h) subline) with
              | Some (placed :: _) => Some placed
              | _ => pdb_cache_path
              end) sublines acc),
     add_lines (map (PyStr.strip (python3 h)) sublines) s).
Proof.
  revert acc s. induction sublines as [|l sublines IH]; intros acc s.
  - by rewrite add_lines_nil.
  - rewrite for_fold_cons, bind_run, bind_run. unfold print at 1.
    cbn [fold_left map]. rewrite <- add_lines_cons.
    destruct (Re.match_groups Re.pdb_cached_re (PyStr.strip (python3 h) l)) as [[|placed ?]|];
      rewrite ret_run; apply IH.
Qed.

(** Lines 65-86 for an uncached reference, when the module namespace binds
    [symcache_files] to a list and [retrieve_path] to some object. *)
Lemma scan_line_retrieval line found s guid age path expected retrieve_path :
  reference line = Some (guid, age, path) ->
  resolve h (symcache_name guid age) ∉ fs s ->
  globals s !! "symcache_files" = Some (PList expected) ->
  globals s !! "retrieve_path" = Some retrieve_path ->
  let cmd := retrieve_command retrieve_path guid age path in
  let ran := run_tool h cmd (environ s) (fs s) in
  scan_line h line found s
  = finish_reference h path (placed_by (python3 h) ran.1)
      (after_retrieval h s guid age path expected cmd ran.1 ran.2).
Proof.
  unfold reference, scan_line.
  destruct (mentions_chrome line); [|discriminate].
  destruct (Re.match_groups Re.pdb_re line) as [[|g [|a [|p [|? ?]]]]|];
    try discriminate.
  intros [= <- <- <-] Hout Hsf Hrp. cbv zeta.
  set (cmd := retrieve_command retrieve_path (PyStr.replace g "-" "") a p).
  set (ran := run_tool h cmd (environ s) (fs s)).
  rewrite bind_run. unfold path_exists at 1.
  rewrite bool_decide_eq_false_2 by exact Hout.
  rewrite bind_run. unfold print at 1. rewrite bind_run.
  unfold append_global at 1. rewrite bind_run. unfold load_global at 1.
  cbn [globals add_line]. rewrite Hsf.
  rewrite bind_run. unfold load_global at 1. cbn [globals set_globals].
  rewrite lookup_insert_ne by done. cbn [globals add_line]. rewrite Hrp.
  rewrite bind_run. unfold print at 1. rewrite bind_run. unfold popen at 1.
  cbn [environ fs add_line set_globals].
  fold (found_message (PyStr.replace g "-" "") a p).
  fold (retrieve_command retrieve_path (PyStr.replace g "-" "") a p). fold cmd.
  fold ran. destruct ran as [out fs1]. cbn [fst snd].
  rewrite bind_run, retrieval_loop. reflexivity.
Qed.

(** Lines 92-98 and 101 for a symbol file that was found. *)
Lemma finish_found (path source : string) (t : state) dirs pdbcopy_path :
  truthy (Some source) = true ->
  globals t !! "tempdirs" = Some (PList dirs) ->
  globals t !! "pdbcopy_path" = Some pdbcopy_path ->
  finish_reference h path (Some source) t
  = (Ok true, after_strip h t source dirs pdbcopy_path).
Proof.
  intros Htrue Htd Hpp. unfold finish_reference. rewrite Htrue. cbn [negb].
  rewrite bind_run, ret_run, Htrue. unfold default, from_option, id.
  rewrite bind_run, bind_run. unfold mkdtemp at 1.
  rewrite bind_run. unfold append_global at 1. rewrite bind_run.
  unfold load_global at 1. cbn [globals add_event set_fs]. rewrite Htd.
  rewrite bind_run. unfold print at 1. rewrite bind_run. unfold load_global at 1.
  cbn [globals add_line set_globals add_event set_fs].
  rewrite lookup_insert_ne by done. rewrite Hpp.
  rewrite bind_run. unfold popen at 1.
  cbn [environ fs add_line set_globals add_event set_fs].
  fold (strip_dir h t). fold (strip_dest h t source).
  fold (pdbcopy_command pdbcopy_path source (strip_dest h t source)).
  fold (strip_run h t source pdbcopy_path).
  destruct (strip_run h t source pdbcopy_path) as [out2 fs2] eqn:Erun.
  rewrite print_loop. rewrite ret_run. unfold after_strip. rewrite Erun. reflexivity.
Qed.

End ScanBound.

Section ScanBoundTheorems.
Import Py Script Scan Run Effects Examples Samples.

(** X8: suppose the module namespace binds symcache_files to a list and
    retrieve_path to an object. For an uncached reference the loop body then
    records the expected symcache file, prints the retrieval command, runs
    it and echoes its output. If no line of that output names a place for
    the symbol file and the PDB path of the trace does not exist, the body
    prints the failure message and goes on: it returns True, has created no
    temporary directory and has started no stripping. *)
Theorem unretrievable_reference_is_reported
        (h : host) (line : string) (found : bool) (s : state)
        (guid age path : string) (expected : list string) (retrieve_path : pyval) :
  reference line = Some (guid, age, path) ->
  resolve h (symcache_name guid age) ∉ fs s ->
  globals s !! "symcache_files" = Some (PList expected) ->
  globals s !! "retrieve_path" = Some retrieve_path ->
  let cmd := retrieve_command retrieve_path guid age path in
  let ran := run_tool h cmd (environ s) (fs s) in
  truthy (placed_by (python3 h) ran.1) = false ->
  resolve h path ∉ ran.2 ->
  exists s',
    scan_line h line found s = (Ok true, s')
    /\ s' = add_line failed_message (after_retrieval h s guid age path expected cmd ran.1 ran.2)
    /\ events s' = events s ++ [EPopen cmd]
    /\ stdout s' = stdout s ++ [found_message guid age path; "> " +:+ cmd]
                      ++ map (PyStr.strip (python3 h)) ran.1 ++ [failed_message]
    /\ globals s' !! "symcache_files"
       = Some (PList (expected ++ [symcache_name guid age])).
Proof.
  intros Href Hout Hsf Hrp cmd ran Hplaced Hlocal.
  rewrite (scan_line_retrieval h line found s guid age path expected retrieve_path)
    by assumption.
  fold cmd. fold ran. unfold finish_reference. rewrite Hplaced. cbn [negb].
  rewrite bind_run, bind_run. unfold path_exists at 1.
  rewrite bool_decide_eq_false_2 by exact Hlocal. rewrite ret_run, Hplaced.
  rewrite bind_run. unfold print at 1. rewrite ret_run.
  eexists. split; [reflexivity|]. split; [reflexivity|].
  cbn [events stdout globals add_line after_retrieval add_lines add_event set_fs set_globals].
  split; [reflexivity|]. split; [|by rewrite lookup_insert_eq].
  by rewrite <- !app_assoc.
Qed.

(** X9: with all five names bound in the module namespace, an uncached
    reference for which the retrieval tool prints a success line is
    stripped from the place that the last such line names: a temporary
    directory is created and recorded in tempdirs, and pdbcopy is run from
    that place to the file of the same base name in the new directory. The
    list of local symbol files is left alone. *)
Theorem retrieved_reference_is_stripped
        (h : host) (line : string) (found : bool) (s : state)
        (guid age path placed : string) (expected dirs : list string)
        (retrieve_path pdbcopy_path : pyval) :
  reference line = Some (guid, age, path) ->
  resolve h (symcache_name guid age) ∉ fs s ->
  globals s !! "symcache_files" = Some (PList expected) ->
  globals s !! "retrieve_path" = Some retrieve_path ->
  globals s !! "tempdirs" = Some (PList dirs) ->
  globals s !! "pdbcopy_path" = Some pdbcopy_path ->
  let cmd := retrieve_command retrieve_path guid age path in
  let ran := run_tool h cmd (environ s) (fs s) in
  placed_by (python3 h) ran.1 = Some placed -> placed <> "" ->
  let t := after_retrieval h s guid age path expected cmd ran.1 ran.2 in
  exists s',
    scan_line h line found s = (Ok true, s')
    /\ s' = after_strip h t placed dirs pdbcopy_path
    /\ events s'
       = events s ++ [EPopen cmd; EMkdtemp (strip_dir h t);
                      EPopen (pdbcopy_command pdbcopy_path placed (strip_dest h t placed))]
    /\ globals s' !! "tempdirs" = Some (PList (dirs ++ [strip_dir h t]))
    /\ globals s' !! "local_symbol_files" = globals s !! "local_symbol_files".
Proof.
  intros Href Hout Hsf Hrp Htd Hpp cmd ran Hplaced Hne t.
  rewrite (scan_line_retrieval h line found s guid age path expected retrieve_path)
    by assumption.
  fold cmd. fold ran. fold t. rewrite Hplaced.
  rewrite (finish_found h path placed t dirs pdbcopy_path).
  - eexists. split; [reflexivity|]. split; [reflexivity|].
    cbn [events globals after_strip add_lines add_event set_fs set_globals add_line].
    split; [|split].
    + subst t. cbn [events after_retrieval add_lines add_event set_fs set_globals add_line].
      by rewrite <- !app_assoc.
    + by rewrite lookup_insert_eq.
    + rewrite lookup_insert_ne by done. subst t.
      cbn [globals after_retrieval add_lines add_event set_fs set_globals add_line].
      by rewrite lookup_insert_ne.
  - by destruct placed.
  - subst t. cbn [globals after_retrieval add_lines add_event set_fs set_globals add_line].
    by rewrite lookup_insert_ne.
  - subst t. cbn [globals after_retrieval add_lines add_event set_fs set_globals add_line].
    by rewrite lookup_insert_ne.
Qed.

(** X10: with all five names bound, an uncached reference for which the
    retrieval tool names no place but whose PDB path exists on this machine
    is taken to be a local build: the path is recorded in
    local_symbol_files and the file is stripped from where it is, into a new
    temporary directory. *)
Theorem local_build_is_stripped
        (h : host) (line : string) (found : bool) (s : state)
        (guid age path : string) (expected locals dirs : list string)
        (retrieve_path pdbcopy_path : pyval) :
  reference line = Some (guid, age, path) ->
  resolve h (symcache_name guid age) ∉ fs s ->
  globals s !! "symcache_files" = Some (PList expected) ->
  globals s !! "retrieve_path" = Some retrieve_path ->
  globals s !! "local_symbol_files" = Some (PList locals) ->
  globals s !! "tempdirs" = Some (PList dirs) ->
  globals s !! "pdbcopy_path" = Some pdbcopy_path ->
  let cmd := retrieve_command retrieve_path guid age path in
  let ran := run_tool h cmd (environ s) (fs s) in
  truthy (placed_by (python3 h) ran.1) = false ->
  resolve h path ∈ ran.2 -> path <> "" ->
  let t0 := after_retrieval h s guid age path expected cmd ran.1 ran.2 in
  let t := set_globals (<["local_symbol_files" := PList (locals ++ [path])]> (globals t0)) t0 in
  exists s',
    scan_line h line found s = (Ok true, s')
    /\ s' = after_strip h t path dirs pdbcopy_path
    /\ events s'
       = events s ++ [EPopen cmd; EMkdtemp (strip_dir h t);
                      EPopen (pdbcopy_command pdbcopy_path path (strip_dest h t path))]
    /\ globals s' !! "local_symbol_files" = Some (PList (locals ++ [path]))
    /\ globals s' !! "tempdirs" = Some (PList (dirs ++ [strip_dir h t])).
Proof.
  intros Href Hout Hsf Hrp Hlf Htd Hpp cmd ran Hplaced Hlocal Hne t0 t.
  rewrite (scan_line_retrieval h line found s guid age path expected retrieve_path)
    by assumption.
  fold cmd. fold ran. fold t0.
  assert (Hstep : finish_reference h path (placed_by (python3 h) ran.1) t0
                  = finish_reference h path (Some path) t).
  { unfold finish_reference at 1. rewrite Hplaced. cbn [negb].
    rewrite bind_run, bind_run. unfold path_exists at 1.
    assert (Hfs : fs t0 = ran.2) by reflexivity. rewrite Hfs.
    rewrite bool_decide_eq_true_2 by exact Hlocal.
    rewrite bind_run. unfold append_global at 1. rewrite bind_run.
    unfold load_global at 1.
    assert (Hlf0 : globals t0 !! "local_symbol_files" = Some (PList locals)).
    { subst t0. cbn [globals after_retrieval add_lines add_event set_fs set_globals add_line].
      by rewrite lookup_insert_ne. }
    rewrite Hlf0. rewrite ret_run. fold t.
    unfold finish_reference.
    assert (Htrue : truthy (Some path) = true) by (by destruct path).
    rewrite Htrue. cbn [negb]. rewrite (bind_run (mret (Some path))), ret_run.
    rewrite ?Htrue. reflexivity. }
  rewrite Hstep.
  rewrite (finish_found h path path t dirs pdbcopy_path).
  - eexists. split; [reflexivity|]. split; [reflexivity|].
    cbn [events globals after_strip add_lines add_event set_fs set_globals add_line].
    split; [|split].
    + subst t t0. cbn [events after_retrieval add_lines add_event set_fs set_globals add_line].
      by rewrite <- !app_assoc.
    + rewrite lookup_insert_ne by done. subst t. cbn [globals set_globals].
      by rewrite lookup_insert_eq.
    + by rewrite lookup_insert_eq.
  - by destruct path.
  - subst t t0. cbn [globals after_retrieval add_lines add_event set_fs set_globals add_line].
    by rewrite !lookup_insert_ne.
  - subst t t0. cbn [globals after_retrieval add_lines add_event set_fs set_globals add_line].
    by rewrite !lookup_insert_ne.
Qed.

Lemma unretrievable_reference_is_reported_witness :
  let h := retriever ["SYMSRV: not found"] in
  let r := scan_line h (chrome_line +:+ newline) false (bound_state installed) in
  r.1 = Ok true
  /\ events r.2
     = [EPopen "C:\etw\bin\RetrieveSymbols.exe AAAAAAAABBBBCCCCDDDDEEEEEEEEEEEE 3 chrome.dll.pdb"]
  /\ last (stdout r.2) = Some failed_message.
Proof.
  intros h r.
  destruct (unretrievable_reference_is_reported h (chrome_line +:+ newline) false
              (bound_state installed) "AAAAAAAABBBBCCCCDDDDEEEEEEEEEEEE" "3"
              "C:\x\chrome.dll.pdb" [] (PStr "C:\etw\bin\RetrieveSymbols.exe"))
    as (s' & E & _ & Hev & Hout & _).
  - vm_compute. reflexivity.
  - by_compute.
  - vm_compute. reflexivity.
  - vm_compute. reflexivity.
  - vm_compute. reflexivity.
  - by_compute.
  - subst r. rewrite E. cbn [fst snd]. split; [reflexivity|]. split.
    + rewrite Hev. vm_compute. reflexivity.
    + rewrite Hout, !app_assoc. apply last_snoc.
Defined.

Lemma retrieved_reference_is_stripped_witness :
  let h := retriever ["SYMSRV: found"; placed_line] in
  let r := scan_line h (chrome_line +:+ newline) false (bound_state installed) in
  r.1 = Ok true
  /\ events r.2
     = [EPopen "C:\etw\bin\RetrieveSymbols.exe AAAAAAAABBBBCCCCDDDDEEEEEEEEEEEE 3 chrome.dll.pdb";
        EMkdtemp "C:\Temp\tmpa1b2c3";
        EPopen "C:\etw\bin\pdbcopy.exe c:\symbols\chrome.dll.pdb\AAAA3\chrome.dll.pdb C:\Temp\tmpa1b2c3\chrome.dll.pdb -p"].
Proof.
  intros h r.
  destruct (retrieved_reference_is_stripped h (chrome_line +:+ newline) false
              (bound_state installed) "AAAAAAAABBBBCCCCDDDDEEEEEEEEEEEE" "3"
              "C:\x\chrome.dll.pdb" "c:\symbols\chrome.dll.pdb\AAAA3\chrome.dll.pdb"
              [] [] (PStr "C:\etw\bin\RetrieveSymbols.exe") (PStr "C:\etw\bin\pdbcopy.exe"))
    as (s' & E & _ & Hev & _).
  - vm_compute. reflexivity.
  - by_compute.
  - vm_compute. reflexivity.
  - vm_compute. reflexivity.
  - vm_compute. reflexivity.
  - vm_compute. reflexivity.
  - vm_compute. reflexivity.
  - done.
  - subst r. rewrite E. cbn [fst snd]. split; [reflexivity|].
    rewrite Hev. vm_compute. reflexivity.
Defined.

Lemma local_build_is_stripped_witness :
  let h := retriever ["SYMSRV: not found"] in
  let s := bound_state ({["C:\x\chrome.dll.pdb"]} ∪ installed) in
  let r := scan_line h (chrome_line +:+ newline) false s in
  r.1 = Ok true
  /\ globals r.2 !! "local_symbol_files" = Some (PList ["C:\x\chrome.dll.pdb"])
  /\ events r.2
     = [EPopen "C:\etw\bin\RetrieveSymbols.exe AAAAAAAABBBBCCCCDDDDEEEEEEEEEEEE 3 chrome.dll.pdb";
        EMkdtemp "C:\Temp\tmpa1b2c3";
        EPopen "C:\etw\bin\pdbcopy.exe C:\x\chrome.dll.pdb C:\Temp\tmpa1b2c3\chrome.dll.pdb -p"].
Proof.
  intros h s r.
  destruct (local_build_is_stripped h (chrome_line +:+ newline) false s
              "AAAAAAAABBBBCCCCDDDDEEEEEEEEEEEE" "3" "C:\x\chrome.dll.pdb"
              [] [] [] (PStr "C:\etw\bin\RetrieveSymbols.exe") (PStr "C:\etw\bin\pdbcopy.exe"))
    as (s' & E & _ & Hev & Hlf & _).
  - vm_compute. reflexivity.
  - by_compute.
  - vm_compute. reflexivity.
  - vm_compute. reflexivity.
  - vm_compute. reflexivity.
  - vm_compute. reflexivity.
  - vm_compute. reflexivity.
  - vm_compute. reflexivity.
  - by_compute.
  - done.
  - subst r. rewrite E. cbn [fst snd]. split; [reflexivity|]. split; [exact Hlf|].
    rewrite Hev. vm_compute. reflexivity.
Defined.

End ScanBoundTheorems.

Section TextTheorems.
Import Text Re Examples Samples.

(** X11: whenever the pattern of line 55 matches a line, it yields exactly
    three groups, and the line starts with a double quote, the text
    [RSDS] PdbSig: and an opening brace, the first group, the text
    closing brace; Age: , the second group, the text ; Pdb: , the third
    group and a double quote. No group holds a line feed, and the first
    one has at least four dashes. So every line that the loop body treats
    as a reference has this form, names chrome.dll or chrome_child.dll
    somewhere, and is looked up under its signature without the dashes. *)
Theorem pdb_re_match_shape (line : string) :
  (forall groups,
     Re.match_groups Re.pdb_re line = Some groups ->
     exists g a p rest,
       groups = [g; a; p]
       /\ line = dquote +:+ "[RSDS] PdbSig: {" +:+ g +:+ "}; Age: " +:+ a
                  +:+ "; Pdb: " +:+ p +:+ dquote +:+ rest
       /\ no_lf g /\ no_lf a /\ no_lf p
       /\ exists x1 x2 x3 x4 x5,
            g = x1 +:+ "-" +:+ x2 +:+ "-" +:+ x3 +:+ "-" +:+ x4 +:+ "-" +:+ x5)
  /\ (forall guid age path,
        Scan.reference line = Some (guid, age, path) ->
        exists sig rest,
          line = dquote +:+ "[RSDS] PdbSig: {" +:+ sig +:+ "}; Age: " +:+ age
                   +:+ "; Pdb: " +:+ path +:+ dquote +:+ rest
          /\ guid = delete_char "-" sig
          /\ has_char "-" guid = false
          /\ (occurs "chrome.dll" line \/ occurs "chrome_child.dll" line)).
Proof.
  split; [intros groups; apply pdb_re_sound|].
  intros guid age path. unfold Scan.reference.
  destruct (Script.mentions_chrome line) eqn:Hm; [|discriminate].
  destruct (Re.match_groups Re.pdb_re line) as [groups|] eqn:Hg; [|discriminate].
  destruct (pdb_re_sound _ _ Hg) as (g & a & p & rest & -> & Hline & _).
  intros [= <- <- <-]. exists g, rest. split; [exact Hline|].
  rewrite replace_char_delete. split; [reflexivity|]. split; [apply delete_char_gone|].
  unfold Script.mentions_chrome in Hm.
  apply orb_true_iff in Hm as [Hm|Hm]; apply Nat.ltb_lt, count_positive in Hm; auto; done.
Qed.

Lemma pdb_re_match_shape_witness :
  exists rest,
    chrome_line +:+ newline
    = dquote +:+ "[RSDS] PdbSig: {" +:+ "AAAAAAAA-BBBB-CCCC-DDDD-EEEEEEEEEEEE"
        +:+ "}; Age: " +:+ "3" +:+ "; Pdb: " +:+ "C:\x\chrome.dll.pdb" +:+ dquote +:+ rest.
Proof.
  destruct (pdb_re_match_shape (chrome_line +:+ newline)) as [H _].
  destruct (H ["AAAAAAAA-BBBB-CCCC-DDDD-EEEEEEEEEEEE"; "3"; "C:\x\chrome.dll.pdb"])
    as (g & a & p & rest & [= <- <- <-] & Hline & _).
  - vm_compute. reflexivity.
  - by exists rest.
Defined.

(** X12: round trip. A line in the enumerator's format, built from a
    signature of five dash-separated parts, an age and a PDB path, followed
    by anything, is read back by the pattern of line 55 as exactly that
    signature, age and path, provided none of the three holds a line feed
    or a closing brace, age and path hold no semicolon, and the path and
    what follows the line hold no double quote (nor brace or semicolon). *)
Theorem pdb_re_round_trip (x1 x2 x3 x4 x5 age pdb tail : string) :
  let sig := x1 +:+ "-" +:+ x2 +:+ "-" +:+ x3 +:+ "-" +:+ x4 +:+ "-" +:+ x5 in
  no_lf sig -> has_char "}" sig = false ->
  no_lf age -> has_char "}" age = false -> has_char ";" age = false ->
  no_lf pdb -> has_char "}" pdb = false -> has_char ";" pdb = false ->
  has_char "034" pdb = false ->
  has_char "}" tail = false -> has_char ";" tail = false ->
  has_char "034" tail = false ->
  Re.match_groups Re.pdb_re (rsds sig age pdb +:+ tail) = Some [sig; age; pdb].
Proof.
  intros sig Hs Hs1 Ha Ha1 Ha2 Hp Hp1 Hp2 Hp3 Ht1 Ht2 Ht3.
  set (line := rsds sig age pdb +:+ tail).
  assert (Hline : line = dquote +:+ "[RSDS] PdbSig: {" +:+ sig +:+ "}; Age: " +:+ age
                           +:+ "; Pdb: " +:+ pdb +:+ dquote +:+ tail).
  { subst line. unfold rsds. by rewrite !str_app_assoc. }
  assert (Hsome : is_Some (match_groups pdb_re line)).
  { unfold match_groups.
    enough (is_Some (run pdb_re line 0 [] [])) as [spans ->] by by eexists.
    rewrite Hline. subst sig. unfold no_lf in Hs. rewrite !has_char_app in Hs.
    cbn [has_char] in Hs.
    repeat (apply orb_false_elim in Hs as [? Hs]).
    unfold pdb_re.
    replace (dquote +:+ "[RSDS] PdbSig: {" +:+ _)
      with ((dquote +:+ "[RSDS] PdbSig: {") +:+ x1 +:+ String "-" (x2 +:+ String "-" (x3 +:+
             String "-" (x4 +:+ String "-" (x5 +:+ "}; Age: " +:+ age +:+ "; Pdb: " +:+ pdb
               +:+ dquote +:+ tail)))))
      by (rewrite !str_app_assoc, !str_app_cons, !str_app_nil_l; reflexivity).
    rewrite run_lits_fwd. cbn [app]. rewrite run_open.
    apply run_dotstar_some; [done|]. rewrite run_lit_fwd.
    apply run_dotstar_some; [done|]. rewrite run_lit_fwd.
    apply run_dotstar_some; [done|]. rewrite run_lit_fwd.
    apply run_dotstar_some; [done|]. rewrite run_lit_fwd.
    apply run_dotstar_some; [done|]. rewrite run_close.
    rewrite run_lits_fwd. cbn [app]. rewrite run_open.
    apply run_dotstar_some; [done|]. rewrite run_close.
    rewrite run_lits_fwd. cbn [app]. rewrite run_open.
    apply run_dotstar_some; [done|]. rewrite run_close.
    rewrite <- (app_nil_r (lits dquote)), run_lits_fwd. by eexists. }
  destruct Hsome as [groups Hg]. rewrite Hg.
  destruct (pdb_re_sound _ _ Hg) as (g & a & p & rest & -> & Hline' & _).
  rewrite Hline in Hline'.
  apply str_app_inv_head in Hline'.
  apply (str_app_inv_head "[RSDS] PdbSig: {") in Hline'.
  apply (unique_split "}" sig _ g _) in Hline' as [<- Hline']; [|done|].
  2:{ rewrite ?has_char_app. cbn [has_char dquote]. rewrite ?has_char_app.
      cbn [has_char]. by rewrite Ha1, Hp1, Ht1. }
  apply (str_app_inv_head "; Age: ") in Hline'.
  apply (unique_split ";" age _ a _) in Hline' as [<- Hline']; [|done|].
  2:{ rewrite ?has_char_app. cbn [has_char dquote]. rewrite ?has_char_app.
      cbn [has_char]. by rewrite Hp2, Ht2. }
  apply (str_app_inv_head " Pdb: ") in Hline'.
  apply (unique_split "034" pdb _ p _) in Hline' as [<- Hline']; done.
Qed.

Lemma pdb_re_round_trip_witness :
  Re.match_groups Re.pdb_re
    (rsds "be90dbc6-fe31-4842-9c72-7e2ea88f0adf" "1" "C:\b\chrome.dll.pdb" +:+ newline)
  = Some ["be90dbc6-fe31-4842-9c72-7e2ea88f0adf"; "1"; "C:\b\chrome.dll.pdb"].
Proof.
  apply (pdb_re_round_trip "be90dbc6" "fe31" "4842" "9c72" "7e2ea88f0adf" "1"
           "C:\b\chrome.dll.pdb" newline); reflexivity.
Defined.

(** X13: whenever the pattern of line 56 matches a line of the retrieval
    tool's output, the line starts with Found, a space, some text, the
    words file - placed it in and a space, and the one group is the text
    that follows, up to a line feed or the end. *)
Theorem pdb_cached_re_match_shape (line : string) (groups : list string) :
  Re.match_groups Re.pdb_cached_re line = Some groups ->
  exists x placed rest,
    groups = [placed]
    /\ line = "Found " +:+ x +:+ "file - placed it in " +:+ placed +:+ rest
    /\ no_lf x /\ no_lf placed.
Proof.
  unfold Re.match_groups.
  destruct (Re.run Re.pdb_cached_re line 0 [] []) as [spans|] eqn:E; [|discriminate].
  unfold Re.pdb_cached_re in E.
  apply run_lits_inv in E as (s0 & -> & E). cbn [app] in E.
  apply run_dotstar_inv in E as (x & s1 & -> & Hx & E).
  apply run_lits_inv in E as (s2 & -> & E). cbn [app] in E. rewrite run_open in E.
  apply run_dotstar_inv in E as (p & rest & -> & Hp & E). rewrite run_close in E.
  apply run_nil_inv in E. subst spans. cbn [rev app map].
  replace ("Found " +:+ x +:+ "file - placed it in " +:+ p +:+ rest)
    with (("Found " +:+ x +:+ "file - placed it in ") +:+ p +:+ rest)
    by (by rewrite !str_app_assoc).
  rewrite (substring_at ("Found " +:+ x +:+ "file - placed it in ") p rest).
  - intros [= <-]. exists x, p, rest. by rewrite !str_app_assoc.
  - rewrite !str_length_app. cbn [String.length]. lia.
  - lia.
Qed.

Lemma pdb_cached_re_match_shape_witness :
  exists x rest,
    placed_line_text
    = "Found " +:+ x +:+ "file - placed it in " +:+ "c:\sym\chrome.dll.pdb" +:+ rest.
Proof.
  destruct (pdb_cached_re_match_shape placed_line_text ["c:\sym\chrome.dll.pdb"])
    as (x & placed & rest & [= <-] & Hline & _).
  - vm_compute. reflexivity.
  - by exists x, rest.
Defined.

(** X14: the base name that [os.path.split] returns, which the script uses
    as the file name of the retrieval command and of the stripped copy, is
    the end of the path it was given and holds no path separator. *)
Theorem split_tail_is_base_name (p : string) :
  (exists front, p = front +:+ (NtPath.split p).2) /\ no_sep (NtPath.split p).2.
Proof.
  unfold NtPath.split.
  destruct (NtPath.splitdrive p) as [d q] eqn:Ed.
  destruct (cut_last_sep_spec q) as [Hq Ht].
  destruct (NtPath.cut_last_sep q) as [h t]. cbn [fst snd] in *.
  split; [|exact Ht].
  assert (Hp : p = d +:+ q).
  { unfold NtPath.splitdrive in Ed.
    destruct p as [|a [|b r]]; try by injection Ed as <- <-.
    destruct (Ascii.eqb_spec b ":") as [->|Hb].
    - by injection Ed as <- <-.
    - destruct b as [[] [] [] [] [] [] [] []]; try (by injection Ed as <- <-); done. }
  exists (d +:+ h). by rewrite Hp, Hq, str_app_assoc.
Qed.

Lemma split_tail_is_base_name_witness :
  no_sep (NtPath.split "C:\b\build\chrome.dll.pdb").2.
Proof. apply (split_tail_is_base_name "C:\b\build\chrome.dll.pdb"). Defined.

(** X15: the test of line 65 is a test for literal substrings: a line is
    looked at further exactly when chrome.dll or chrome_child.dll occurs
    somewhere in it. *)
Theorem mentions_chrome_is_substring_test (line : string) :
  Script.mentions_chrome line = true
  <-> occurs "chrome.dll" line \/ occurs "chrome_child.dll" line.
Proof.
  unfold Script.mentions_chrome.
  rewrite orb_true_iff, !Nat.ltb_lt, !count_positive by done. reflexivity.
Qed.

Lemma mentions_chrome_is_substring_test_witness :
  Script.mentions_chrome "Loaded chrome_child.dll at 0x1000" = true.
Proof.
  apply (mentions_chrome_is_substring_test "Loaded chrome_child.dll at 0x1000").
  right. by exists "Loaded ", " at 0x1000".
Defined.

(** X16: the signature that enters the symcache file name (line 69) holds
    no dash, keeps every other character of the signature of the trace in
    its order, and is that signature itself when it has no dash. *)
Theorem signature_dashes_removed (sig : string) :
  let guid := PyStr.replace sig "-" "" in
  guid = delete_char "-" sig
  /\ has_char "-" guid = false
  /\ (forall c, c <> "-"%char -> has_char c guid = has_char c sig)
  /\ (has_char "-" sig = false -> guid = sig)
  /\ (forall a b, PyStr.replace (a +:+ "-" +:+ b) "-" ""
                  = PyStr.replace a "-" "" +:+ PyStr.replace b "-" "").
Proof.
  cbn zeta. rewrite replace_char_delete. split; [reflexivity|].
  split; [apply delete_char_gone|]. split; [intros c Hc; by apply delete_char_other|].
  split; [apply delete_char_id|]. intros a b.
  rewrite !replace_char_delete, !delete_char_app. reflexivity.
Qed.

Lemma signature_dashes_removed_witness :
  has_char "-" (PyStr.replace "be90dbc6-fe31-4842-9c72-7e2ea88f0adf" "-" "") = false.
Proof. apply (signature_dashes_removed "be90dbc6-fe31-4842-9c72-7e2ea88f0adf"). Defined.

End TextTheorems.

(** ** The early exits of the preflight *)

Section PreflightExits.
Import Py Script Scan Run Effects Examples Text.

(** Why the preflight has called [sys.exit]. *)
Lemma preflight_exit_reasons (h : host) (sys_argv : list string) (s s' : state)
      (code : Z) :
  preflight h sys_argv s = (Raise (SystemExit code), s') ->
  let dir := (NtPath.split (hd "" sys_argv)).1 in
  (length sys_argv < 2
   /\ s' = add_line ("Usage: " +:+ hd "" sys_argv +:+ " trace.etl") s)
  \/ (marker_count s = 0
      /\ s' = add_line "Chromium symbol server is not in _NT_SYMBOL_PATH. No symbol stripping needed." s)
  \/ (exists s1,
        s' = add_line "pdbcopy.exe not found. No symbol stripping is possible." s1
        /\ (resolve h (NtPath.join dir ["pdbcopy.exe"]) ∉ fs s1)
        /\ (resolve h "pdbcopy.exe" ∈ fs s1
            \/ resolve h (copy_dest dir "pdbcopy.exe") ∈ fs s1))
  \/ (exists s1,
        s' = add_line "RetrieveSymbols.exe not found. No symbol retrieval is possible." s1
        /\ (resolve h (NtPath.join dir ["RetrieveSymbols.exe"]) ∉ fs s1)
        /\ (resolve h (NtPath.join dir ["pdbcopy.exe"]) ∈ fs s1)).
Proof.
  intros E dir. unfold preflight in E.
  destruct sys_argv as [|argv0 [|tracename rest]]; [discriminate| |].
  - injection E as _ <-. left. split; [cbn [length]; lia|reflexivity].
  - subst dir. cbn [hd] in *.
    unfold mbind, M_bind, bind, mret, M_ret, ret, environ_get, print,
      sys_exit, raise, index, path_exists in E.
    cbn [length Nat.ltb Nat.leb nth_error] in E. cbv beta iota in E.
    fold (marker_count s) in E.
    destruct (Nat.eqb_spec (marker_count s) 0) as [Hm|Hm].
    { injection E as _ <-. right. left. by split. }
    cbv beta iota in E. unfold ret in E. cbv beta iota in E.
    match type of E with
    | context [for_each ?l ?b s] =>
        destruct (for_each l b s) as [r1 s1] eqn:El;
        assert (El' : for_each support_files
                        (fun third_party =>
                           present ← path_exists h third_party;
                           if negb present then
                             copy2 h
                               (NtPath.normpath
                                  (NtPath.join (NtPath.split argv0).1 ["..\third_party"; third_party]))
                               (NtPath.normpath (NtPath.join (NtPath.split argv0).1 [third_party]))
                           else mret tt) s = (r1, s1)) by exact El
    end.
    apply copy_loop_effects in El' as (copied & _ & _ & _ & _ & _ & _ & Hr).
    destruct r1 as [[]|e].
    2:{ injection E as -> _. by destruct Hr as (n & _ & ? & _). }
    destruct (bool_decide (resolve h (NtPath.join _ ["pdbcopy.exe"]) ∈ fs s1)) eqn:Hp;
      cbn [negb] in E.
    2:{ injection E as _ <-. right. right. left. exists s1.
        apply bool_decide_eq_false in Hp.
        split; [reflexivity|]. split; [exact Hp|]. apply Hr. by left. }
    destruct (bool_decide (resolve h (NtPath.join _ ["RetrieveSymbols.exe"]) ∈ fs s1)) eqn:Hq;
      cbn [negb] in E; [discriminate|].
    injection E as _ <-. right. right. right. exists s1.
    apply bool_decide_eq_false in Hq. apply bool_decide_eq_true in Hp.
    split; [reflexivity|]. by split.
Qed.

(** X17: when the script directory is the current directory, so that the
    bare name pdbcopy.exe, the path of line 116 and the copy target of line
    125 are the same file, the message that pdbcopy.exe was not found is
    never printed: every exit of the preflight through [sys.exit] then
    prints the usage line, the line about the symbol server, or the line
    about RetrieveSymbols.exe. A missing pdbcopy.exe shows as the exception
    of the failed copy instead. *)
Theorem pdbcopy_message_needs_other_directory
        (h : host) (sys_argv : list string) (s s' : state) (code : Z) :
  let dir := (NtPath.split (hd "" sys_argv)).1 in
  resolve h (NtPath.join dir ["pdbcopy.exe"]) = resolve h "pdbcopy.exe" ->
  resolve h (copy_dest dir "pdbcopy.exe") = resolve h "pdbcopy.exe" ->
  preflight h sys_argv s = (Raise (SystemExit code), s') ->
  exists s1 message,
    s' = add_line message s1
    /\ code = 0%Z
    /\ (message = "Usage: " +:+ hd "" sys_argv +:+ " trace.etl"
        \/ message = "Chromium symbol server is not in _NT_SYMBOL_PATH. No symbol stripping needed."
        \/ message = "RetrieveSymbols.exe not found. No symbol retrieval is possible.").
Proof.
  intros dir Hjoin Hdest E.
  assert (Hcode : code = 0%Z).
  { destruct (preflight_effects h _ _ _ _ E) as (_ & _ & _ & _ & _ & _ & Hc & _).
    exact Hc. }
  destruct (preflight_exit_reasons h _ _ _ _ E)
    as [[_ ->]|[[_ ->]|[(s1 & -> & Hmissing & Hthere)|(s1 & -> & _)]]].
  - eexists _, _. split; [reflexivity|]. split; [exact Hcode|]. by left.
  - eexists _, _. split; [reflexivity|]. split; [exact Hcode|]. right. by left.
  - exfalso. apply Hmissing. fold dir. rewrite Hjoin.
    destruct Hthere as [H|H]; [exact H|]. fold dir in H. by rewrite Hdest in H.
  - eexists _, _. split; [reflexivity|]. split; [exact Hcode|]. right. by right.
Qed.

Lemma pdbcopy_message_needs_other_directory_witness :
  let h := machine "C:\etw\bin" [] in
  let files : gset string :=
    list_to_set ["C:\etw\bin\pdbcopy.exe"; "C:\etw\bin\dbghelp.dll"; "C:\etw\bin\symsrv.dll"] in
  exists s1,
    (preflight h [script; "trace.etl"] (initial files symbol_env)).2
    = add_line "RetrieveSymbols.exe not found. No symbol retrieval is possible." s1.
Proof.
  intros h files.
  destruct (pdbcopy_message_needs_other_directory h [script; "trace.etl"]
              (initial files symbol_env)
              (preflight h [script; "trace.etl"] (initial files symbol_env)).2 0)
    as (s1 & message & E & _ & _).
  - vm_compute. reflexivity.
  - vm_compute. reflexivity.
  - vm_compute. reflexivity.
  - assert (Hlast : last (stdout (preflight h [script; "trace.etl"]
                                    (initial files symbol_env)).2) = Some message)
      by (rewrite E; apply last_snoc).
    vm_compute in Hlast. injection Hlast as <-. by exists s1.
Defined.

End PreflightExits.

(** ** Stripping white space *)

Section StripFacts.
Import Text.
Context (py3 : bool).





End StripFacts.

